(** * Slack notifier for Salesforce test results

    A shallow embedding of [.github/scripts/slack-notifier.py] and the
    properties of its payload rendering, summary loading, delivery and
    exit codes.

    Python values loaded from JSON are the inductive [pyval]; strings are
    UTF-8 byte strings; the file system, the clock, the network, the
    environment and [sys.argv] are the fields of a [World]; [print] and
    [requests.post] leave events in a trace; exceptions are explicit. *)

From Stdlib Require Import String Ascii ZArith List Bool Lia DecimalString.
From Stdlib Require Import Floats.SpecFloat.
Import ListNotations.

Local Open Scope Z_scope.
Local Open Scope list_scope.
Local Open Scope string_scope.

(** ** Python values *)

Set Warnings "-register-all".

(** What [json.load] can return: [None], [bool], [int], [float], [str],
    [list], [dict]. A dict keeps its insertion order; [PDict] is the list
    of its items, looked up from the front. *)
Inductive pyval : Type :=
| PNone
| PBool (b : bool)
| PInt (n : Z)
| PFloat (f : spec_float)
| PStr (s : string)
| PList (l : list pyval)
| PDict (d : list (string * pyval)).

(** An exception instance: its class name and [str(e)]. *)
Record pyexc : Type := mkExc { exc_class : string; exc_msg : string }.

(** What unwinds the stack: an instance of [Exception], or [SystemExit],
    which derives from [BaseException] and so passes [except Exception]. *)
Inductive raised : Type :=
| Exc (e : pyexc)
| SystemExit (code : Z).

(** The line feed of Python's ["\n"]. *)
Definition nl : string := String (ascii_of_nat 10) EmptyString.

Module Py.

(** [type(v).__name__] *)
Definition type_name (v : pyval) : string :=
  match v with
  | PNone => "NoneType"
  | PBool _ => "bool"
  | PInt _ => "int"
  | PFloat _ => "float"
  | PStr _ => "str"
  | PList _ => "list"
  | PDict _ => "dict"
  end.

(** [bool(v)] *)
Definition truthy (v : pyval) : bool :=
  match v with
  | PNone => false
  | PBool b => b
  | PInt n => negb (n =? 0)%Z
  | PFloat (S754_zero _) => false
  | PFloat _ => true
  | PStr s => negb (s =? "")%string
  | PList l => match l with [] => false | _ => true end
  | PDict d => match d with [] => false | _ => true end
  end.

(** Truth of an optional string ([None] and [""] are false). *)
Definition str_truthy (o : option string) : bool :=
  match o with
  | Some s => negb (s =? "")%string
  | None => false
  end.

Definition str_value (o : option string) : string :=
  match o with
  | Some s => s
  | None => "None"
  end.

(** Exact order of a float and an int, as CPython's [float_richcompare]
    decides it; [None] for NaN, which is unordered. A finite float is
    [(-1)^neg * m * 2^e]. *)
Definition float_cmp_int (f : spec_float) (z : Z) : option comparison :=
  match f with
  | S754_nan => None
  | S754_infinity neg => Some (if neg then Lt else Gt)
  | S754_zero _ => Some (0 ?= z)%Z
  | S754_finite neg m e =>
      let sm := if neg then Z.neg m else Z.pos m in
      Some (if (0 <=? e)%Z then (sm * 2 ^ e ?= z)%Z
            else (sm ?= z * 2 ^ (- e))%Z)
  end.

(** Order of a value and an int literal: numbers ([bool] is an [int])
    are ordered, NaN is unordered, everything else is a [TypeError]
    (reported by [cmp_int] below). *)
Definition num_cmp_int (v : pyval) (z : Z) : option (option comparison) :=
  match v with
  | PBool b => Some (Some (Z.b2z b ?= z)%Z)
  | PInt n => Some (Some (n ?= z)%Z)
  | PFloat f => Some (float_cmp_int f z)
  | _ => None
  end.

Definition not_supported (op : string) (v : pyval) : pyexc :=
  mkExc "TypeError"
    ("'" ++ op ++ "' not supported between instances of '"
         ++ type_name v ++ "' and 'int'").

(** [v == z]: never raises; false across types. *)
Definition eq_int (v : pyval) (z : Z) : bool :=
  match num_cmp_int v z with
  | Some (Some Eq) => true
  | _ => false
  end.

(** [v > z] *)
Definition gt_int (v : pyval) (z : Z) : pyexc + bool :=
  match num_cmp_int v z with
  | Some (Some Gt) => inr true
  | Some _ => inr false
  | None => inl (not_supported ">" v)
  end.

(** [v >= z] *)
Definition ge_int (v : pyval) (z : Z) : pyexc + bool :=
  match num_cmp_int v z with
  | Some (Some Gt) | Some (Some Eq) => inr true
  | Some _ => inr false
  | None => inl (not_supported ">=" v)
  end.

(** [v < z] *)
Definition lt_int (v : pyval) (z : Z) : pyexc + bool :=
  match num_cmp_int v z with
  | Some (Some Lt) => inr true
  | Some _ => inr false
  | None => inl (not_supported "<" v)
  end.

(** The values the comparisons with an int literal accept. *)
Definition is_number (v : pyval) : bool :=
  match num_cmp_int v 0 with
  | Some _ => true
  | None => false
  end.

(** [d.get(key, default)] on the items of a dict. *)
Fixpoint dict_get (d : list (string * pyval)) (key : string)
         (default : pyval) : pyval :=
  match d with
  | [] => default
  | (k, v) :: rest =>
      if (k =? key)%string then v else dict_get rest key default
  end.

(** [v.get(key, default)]: only a dict has the method. *)
Definition get (v : pyval) (key : string) (default : pyval)
  : pyexc + pyval :=
  match v with
  | PDict d => inr (dict_get d key default)
  | _ => inl (mkExc "AttributeError"
                ("'" ++ type_name v ++ "' object has no attribute 'get'"))
  end.

(** [ctx.get(key, default)] on a [Dict[str, str]]. *)
Fixpoint str_get (d : list (string * string)) (key default : string)
  : string :=
  match d with
  | [] => default
  | (k, v) :: rest =>
      if (k =? key)%string then v else str_get rest key default
  end.

(** [str(n)] for an int. *)
Definition str_int (n : Z) : string :=
  NilZero.string_of_int (Z.to_int n).

Definition lower_ascii (c : ascii) : ascii :=
  let n := nat_of_ascii c in
  if (Nat.leb 65 n && Nat.leb n 90)%bool then ascii_of_nat (n + 32) else c.

(** [s.lower()], on ASCII letters (the source lowers "SUCCESS" and
    "FAILED" only). *)
Fixpoint lower (s : string) : string :=
  match s with
  | EmptyString => EmptyString
  | String c rest => String (lower_ascii c) (lower rest)
  end.

(** Decimal digits of [n], zero-padded on the left to [width]. *)
Definition zero_pad (width : nat) (n : Z) : string :=
  let s := str_int n in
  String.concat "" (repeat "0" (width - String.length s)) ++ s.

End Py.

(** ** The world outside the program *)

(** [datetime.now()], to the second. *)
Record datetime : Type := mkDatetime {
  year : Z; month : Z; day : Z; hour : Z; minute : Z; second : Z }.

(** [dt.strftime('%Y-%m-%d %H:%M:%S UTC')], for the four-digit years a
    clock reads. *)
Definition strftime_ymd_hms_utc (dt : datetime) : string :=
  Py.zero_pad 4 (year dt) ++ "-" ++ Py.zero_pad 2 (month dt) ++ "-"
    ++ Py.zero_pad 2 (day dt) ++ " "
    ++ Py.zero_pad 2 (hour dt) ++ ":" ++ Py.zero_pad 2 (minute dt) ++ ":"
    ++ Py.zero_pad 2 (second dt) ++ " UTC".

(** The arguments of one [requests.post] call. *)
Record request : Type := mkRequest {
  req_url : string;
  req_json : pyval;
  req_headers : list (string * string);
  req_timeout : Z }.

(** What the program reads of a [requests.Response]. *)
Record response : Type := mkResponse {
  status_code : Z;
  text : string }.

Record World : Type := mkWorld {
  (** [sys.argv] *)
  w_argv : list string;
  (** [os.getenv(name)] *)
  w_getenv : string -> option string;
  (** [open(path, 'r')] followed by reading the file to its end *)
  w_open_read : string -> pyexc + string;
  (** [datetime.now()] *)
  w_now : datetime;
  (** [requests.post]: a response, or a transport exception *)
  w_post : request -> pyexc + response }.

(** What a run leaves behind. *)
Inductive event : Type :=
| EPrint (line : string)
| EPost (r : request).

(** ** Computations: a trace of events, then a value or an exception *)

Definition M (A : Type) : Type := (list event * (raised + A))%type.

Definition ret {A : Type} (a : A) : M A := ([], inr a).

Definition bind {A B : Type} (m : M A) (k : A -> M B) : M B :=
  match m with
  | (tr, inl e) => (tr, inl e)
  | (tr, inr a) => let (tr', r) := k a in ((tr ++ tr')%list, r)
  end.

Notation "x <- m ;; k" := (bind m (fun x => k))
  (at level 61, m at next level, right associativity).
Notation "m ;;; k" := (bind m (fun _ => k))
  (at level 61, right associativity).

Definition raise {A : Type} (e : raised) : M A := ([], inl e).

Definition lift {A : Type} (r : pyexc + A) : M A :=
  match r with
  | inl e => raise (Exc e)
  | inr a => ret a
  end.

Definition print (line : string) : M unit := ([EPrint line], inr tt).

(** [sys.exit(code)] *)
Definition sys_exit {A : Type} (code : Z) : M A := raise (SystemExit code).

(** [try: body / except Exception as e: handler e] *)
Definition try_except {A : Type} (body : M A) (handler : pyexc -> M A)
  : M A :=
  match body with
  | (tr, inl (Exc e)) => let (tr', r) := handler e in ((tr ++ tr')%list, r)
  | other => other
  end.

(** [requests.post(url, json=..., headers=..., timeout=...)]: the attempt
    is an event whether or not the transport then raises. *)
Definition requests_post (w : World) (r : request) : M response :=
  ([EPost r], match w_post w r with
              | inl e => inl (Exc e)
              | inr resp => inr resp
              end).

Definition trace {A : Type} (m : M A) : list event := fst m.
Definition outcome {A : Type} (m : M A) : raised + A := snd m.

(** The requests a trace holds, in order. *)
Fixpoint posts (tr : list event) : list request :=
  match tr with
  | [] => []
  | EPost r :: rest => r :: posts rest
  | EPrint _ :: rest => posts rest
  end.

(** ** The notifier *)

(** The attributes [__init__] sets. *)
Record SlackNotifier : Type := mkNotifier {
  webhook_url : option string;
  bot_token : option string;
  channel : string }.

(** [SlackNotifier.__init__]; the channel's default is supplied by the
    caller. *)
Definition SlackNotifier_init (webhook_url bot_token : option string)
           (channel : string) : raised + SlackNotifier :=
  if (negb (Py.str_truthy webhook_url) && negb (Py.str_truthy bot_token))%bool
  then inl (Exc (mkExc "ValueError"
                   "Either webhook_url or bot_token must be provided"))
  else inr (mkNotifier webhook_url bot_token channel).

(** The record [load_test_summary] falls back to. *)
Definition fallback_summary : pyval :=
  PDict [ ("sandbox", PStr "Unknown");
          ("total_tests", PInt 0);
          ("passed_tests", PInt 0);
          ("failed_tests", PInt 0);
          ("avg_coverage", PInt 0);
          ("status", PStr "❓ Unknown");
          ("coverage_status", PStr "❓ Unknown") ].

(** The locals [color], [status_emoji], [overall_status]. *)
Record status_locals : Type := mkStatus {
  color : string;
  status_emoji : string;
  overall_status : string }.

Definition status_success : status_locals :=
  mkStatus "#36a64f" "✅" "SUCCESS".

Definition status_failed : status_locals :=
  mkStatus "#ff0000" "❌" "FAILED".

(** A [section] block with one [mrkdwn] text. *)
Definition section_text (t : string) : pyval :=
  PDict [ ("type", PStr "section");
          ("text", PDict [ ("type", PStr "mrkdwn"); ("text", PStr t) ]) ].

Definition mrkdwn (t : string) : pyval :=
  PDict [ ("type", PStr "mrkdwn"); ("text", PStr t) ].

Definition plain_text (t : string) : pyval :=
  PDict [ ("type", PStr "plain_text"); ("text", PStr t) ].

(** Lines 151-158: the dict returned when [self.webhook_url] is true. *)
Definition webhook_payload (self : SlackNotifier) (blocks : list pyval)
           (fallback : string) : pyval :=
  PDict [ ("channel", PStr (channel self));
          ("username", PStr "Salesforce CI Bot");
          ("icon_emoji", PStr ":salesforce:");
          ("blocks", PList blocks);
          ("text", PStr fallback) ].

(** Lines 160-164: the dict returned otherwise. *)
Definition bot_payload (self : SlackNotifier) (blocks : list pyval)
           (fallback : string) : pyval :=
  PDict [ ("channel", PStr (channel self));
          ("blocks", PList blocks);
          ("text", PStr fallback) ].

Definition bot_api_url : string := "https://slack.com/api/chat.postMessage".

Definition usage_line : string :=
  "Usage: python3 slack-notifier.py <summary_file> [github_server_url] [github_repository] [github_run_id] [trigger]".

Definition missing_credentials_line : string :=
  "❌ Error: Either SLACK_WEBHOOK_URL or SLACK_BOT_TOKEN environment variable must be set".

(** [os.getenv(name, default)] *)
Definition getenv_default (w : World) (name default : string) : string :=
  match w_getenv w name with
  | Some v => v
  | None => default
  end.

(** [sys.argv[i] if len(sys.argv) > i else os.getenv(name, default)] *)
Definition argv_or_env (w : World) (i : nat) (name default : string)
  : string :=
  if Nat.ltb i (List.length (w_argv w))
  then nth i (w_argv w) ""
  else getenv_default w name default.

(** ** Reading a payload *)

(** One subscript: [v[key]] or [v[i]]. *)
Inductive subscript : Type :=
| Key (k : string)
| Idx (i : nat).

Fixpoint dict_lookup (d : list (string * pyval)) (key : string)
  : option pyval :=
  match d with
  | [] => None
  | (k, v) :: rest =>
      if (k =? key)%string then Some v else dict_lookup rest key
  end.

Definition subscript_value (v : pyval) (s : subscript) : option pyval :=
  match v, s with
  | PDict d, Key k => dict_lookup d k
  | PList l, Idx i => nth_error l i
  | _, _ => None
  end.

(** [v[s1][s2]...] *)
Fixpoint at_path (v : pyval) (path : list subscript) : option pyval :=
  match path with
  | [] => Some v
  | s :: rest =>
      match subscript_value v s with
      | Some v' => at_path v' rest
      | None => None
      end
  end.

Definition string_at (v : pyval) (path : list subscript) : option string :=
  match at_path v path with
  | Some (PStr s) => Some s
  | _ => None
  end.

Definition has_key (payload : pyval) (key : string) : bool :=
  match at_path payload [Key key] with
  | Some _ => true
  | None => false
  end.

(** [payload["blocks"]] *)
Definition payload_blocks (payload : pyval) : list pyval :=
  match at_path payload [Key "blocks"] with
  | Some (PList l) => l
  | _ => []
  end.

(** The header line, [payload["blocks"][0]["text"]["text"]]. *)
Definition header_line (payload : pyval) : option string :=
  string_at payload [Key "blocks"; Idx 0; Key "text"; Key "text"].

(** The status cell of the field grid. *)
Definition status_field (payload : pyval) : option string :=
  string_at payload [Key "blocks"; Idx 1; Key "fields"; Idx 1; Key "text"].

(** The coverage cell of the field grid. *)
Definition coverage_field (payload : pyval) : option string :=
  string_at payload [Key "blocks"; Idx 1; Key "fields"; Idx 3; Key "text"].

(** The fallback plaintext, [payload["text"]]. *)
Definition payload_text (payload : pyval) : option string :=
  string_at payload [Key "text"].

(** [s.startswith(start)] *)
Fixpoint starts_with (start s : string) : bool :=
  match start, s with
  | EmptyString, _ => true
  | String a rest, String b rest' =>
      (Ascii.eqb a b && starts_with rest rest')%bool
  | String _ _, EmptyString => false
  end.

(** A [section] block whose text starts with [start]. *)
Definition is_section_starting (start : string) (block : pyval) : bool :=
  match string_at block [Key "type"], string_at block [Key "text"; Key "text"]
  with
  | Some ty, Some t =>
      ((ty =? "section")%string && starts_with start t)%bool
  | _, _ => false
  end.

(** The failure callout: a section that opens with the warning sign. *)
Definition is_failure_callout : pyval -> bool :=
  is_section_starting "⚠️ *".

(** The coverage alert: a section that opens with the chart. *)
Definition is_coverage_alert : pyval -> bool :=
  is_section_starting "📊 *Coverage Alert:*".

(** What the status cell, the header line and the fallback text show for
    the status locals [st]. *)
Definition marks_status (payload : pyval) (st : status_locals) : Prop :=
  status_field payload
    = Some ("*Status:*" ++ nl ++ status_emoji st ++ " " ++ overall_status st)
  /\ (exists rest, header_line payload
        = Some (status_emoji st ++ " Salesforce Test Results - " ++ rest))
  /\ (exists rest, payload_text payload
        = Some (status_emoji st ++ " Salesforce tests "
                  ++ Py.lower (overall_status st) ++ " for " ++ rest)).

(** The coverage cell ends with [marker]. *)
Definition marks_coverage (payload : pyval) (shown marker : string) : Prop :=
  coverage_field payload
    = Some ("*Coverage:*" ++ nl ++ shown ++ "% " ++ marker).

(** ** The shape of a rendered payload *)

(** The blocks list once every append of lines 94-147 has run. *)
Definition assemble_blocks (base : list pyval) (failed_block : pyval)
           (alert_block : pyval) (has_failures low_coverage : bool)
           (tail_blocks : list pyval) : list pyval :=
  (base ++ (if has_failures then [failed_block] else [])
        ++ (if low_coverage then [alert_block] else [])
        ++ tail_blocks)%list.

(** The dict of lines 149-164. *)
Definition choose_payload (self : SlackNotifier) (blocks : list pyval)
           (fallback : string) : pyval :=
  if Py.str_truthy (webhook_url self)
  then webhook_payload self blocks fallback
  else bot_payload self blocks fallback.

(** The summary fields the comparisons read are numbers, as the data
    model has them; an absent field counts as the int 0. *)
Definition numeric_summary (summary : list (string * pyval)) : bool :=
  (Py.is_number (Py.dict_get summary "failed_tests" (PInt 0))
   && Py.is_number (Py.dict_get summary "total_tests" (PInt 0))
   && Py.is_number (Py.dict_get summary "avg_coverage" (PInt 0)))%bool.

(** ** Sample inputs *)

(** The double quote. *)
Definition dq : string := String (ascii_of_nat 34) EmptyString.

Definition ok_true_body : string := "{" ++ dq ++ "ok" ++ dq ++ ": true}".

Definition ok_false_body : string :=
  "{" ++ dq ++ "ok" ++ dq ++ ": false, " ++ dq ++ "error" ++ dq ++ ": "
      ++ dq ++ "channel_not_found" ++ dq ++ "}".

(** A summary file whose failure count is a string. *)
Definition quoted_count_body : string :=
  "{" ++ dq ++ "failed_tests" ++ dq ++ ": " ++ dq ++ "3" ++ dq ++ "}".

(** A parser that knows three texts and rejects everything else. *)
Definition sample_json_loads (s : string) : pyexc + pyval :=
  if (s =? ok_true_body)%string then inr (PDict [("ok", PBool true)])
  else if (s =? ok_false_body)%string
  then inr (PDict [("ok", PBool false);
                   ("error", PStr "channel_not_found")])
  else if (s =? quoted_count_body)%string
  then inr (PDict [("failed_tests", PStr "3")])
  else inl (mkExc "JSONDecodeError"
              "Expecting value: line 1 column 1 (char 0)").

(** 62.5 is [125 * 2^-1]. *)
Definition sample_float_repr (f : spec_float) : string :=
  match f with
  | S754_finite false 125 (-1) => "62.5"
  | _ => "nan"
  end.

Definition sample_container_str (v : pyval) : string :=
  match v with
  | PList [] => "[]"
  | _ => "{}"
  end.

Definition uat_summary : list (string * pyval) :=
  [ ("sandbox", PStr "UAT");
    ("total_tests", PInt 50);
    ("passed_tests", PInt 47);
    ("failed_tests", PInt 3);
    ("avg_coverage", PInt 62) ].

Definition green_summary : list (string * pyval) :=
  [ ("sandbox", PStr "QA");
    ("total_tests", PInt 12);
    ("passed_tests", PInt 12);
    ("failed_tests", PInt 0);
    ("avg_coverage", PInt 75) ].

Definition sample_context : list (string * string) :=
  [ ("server_url", "https://github.com");
    ("repository", "acme/salesforce");
    ("run_id", "42");
    ("trigger", "push") ].

Definition webhook_notifier : SlackNotifier :=
  mkNotifier (Some "https://hooks.slack.com/services/T/B/X") None "#ci".

Definition bot_notifier : SlackNotifier :=
  mkNotifier None (Some "xoxb-1") "#ci".

Definition both_notifier : SlackNotifier :=
  mkNotifier (Some "https://hooks.slack.com/services/T/B/X")
             (Some "xoxb-1") "#ci".

Definition sample_env (name : string) : option string :=
  if (name =? "SLACK_WEBHOOK_URL")%string
  then Some "https://hooks.slack.com/services/T/B/X"
  else None.

Definition no_such_file (path : string) : pyexc + string :=
  inl (mkExc "FileNotFoundError"
         ("[Errno 2] No such file or directory: '" ++ path ++ "'")).

(** A run with a webhook, no summary file and an endpoint answering 200. *)
Definition morning_world : World :=
  mkWorld ["slack-notifier.py"; "summary.json"] sample_env no_such_file
          (mkDatetime 2024 3 7 9 5 0)
          (fun _ => inr (mkResponse 200 "ok")).

(** The same run, later that day. *)
Definition evening_world : World :=
  mkWorld ["slack-notifier.py"; "summary.json"] sample_env no_such_file
          (mkDatetime 2024 3 7 21 30 59)
          (fun _ => inr (mkResponse 200 "ok")).

(** No credential in the environment. *)
Definition bare_world : World :=
  mkWorld ["slack-notifier.py"; "summary.json"] (fun _ => None) no_such_file
          (mkDatetime 2024 3 7 9 5 0)
          (fun _ => inr (mkResponse 200 "ok")).

(** The platform API answering [ok: true]. *)
Definition api_world : World :=
  mkWorld ["slack-notifier.py"; "summary.json"]
          (fun name => if (name =? "SLACK_BOT_TOKEN")%string
                       then Some "xoxb-1" else None)
          no_such_file
          (mkDatetime 2024 3 7 9 5 0)
          (fun _ => inr (mkResponse 200 ok_true_body)).

(** A summary file with a quoted failure count. *)
Definition quoted_count_world : World :=
  mkWorld ["slack-notifier.py"; "summary.json"] sample_env
          (fun _ => inr quoted_count_body)
          (mkDatetime 2024 3 7 9 5 0)
          (fun _ => inr (mkResponse 200 "ok")).

(** The platform API refusing the message. *)
Definition refusing_world : World :=
  mkWorld ["slack-notifier.py"; "summary.json"]
          (fun name => if (name =? "SLACK_BOT_TOKEN")%string
                       then Some "xoxb-1" else None)
          no_such_file
          (mkDatetime 2024 3 7 9 5 0)
          (fun _ => inr (mkResponse 200 ok_false_body)).

(** A network that times out. *)
Definition offline_world : World :=
  mkWorld ["slack-notifier.py"; "summary.json"] sample_env no_such_file
          (mkDatetime 2024 3 7 9 5 0)
          (fun _ => inl (mkExc "ConnectTimeout" "connection timed out")).

(** The fallback record as the specification words it. *)
Definition spec_fallback_summary : pyval :=
  PDict [ ("sandbox", PStr "Unknown");
          ("total_tests", PInt 0);
          ("passed_tests", PInt 0);
          ("failed_tests", PInt 0);
          ("avg_coverage", PInt 0);
          ("status", PStr "Unknown");
          ("coverage_status", PStr "Unknown") ].

Section Notifier.

(** Library functions the program calls and this development does not
    implement: the JSON parser behind [json.load] and
    [response.json()], [repr] of a float, and [str] of a list or dict. *)
Variable json_loads : string -> pyexc + pyval.
Variable float_repr : spec_float -> string.
Variable container_str : pyval -> string.

Set Default Proof Using "Type".

(** [str(v)], which is what [f"{v}"] formats. *)
Definition str (v : pyval) : string :=
  match v with
  | PNone => "None"
  | PBool true => "True"
  | PBool false => "False"
  | PInt n => Py.str_int n
  | PFloat f => float_repr f
  | PStr s => s
  | PList _ | PDict _ => container_str v
  end.

(** [load_test_summary] *)
Definition load_test_summary (w : World) (summary_file : string)
  : M pyval :=
  try_except
    (content <- lift (w_open_read w summary_file) ;;
     lift (json_loads content))
    (fun e =>
       print ("Warning: Could not load summary file " ++ summary_file
                ++ ": " ++ exc_msg e) ;;;
       ret fallback_summary).

(** Lines 44-51: the status locals. [and] evaluates its right operand
    only when the left one is true. *)
Definition determine_status (summary : list (string * pyval))
  : pyexc + status_locals :=
  if Py.eq_int (Py.dict_get summary "failed_tests" (PInt 0)) 0 then
    match Py.gt_int (Py.dict_get summary "total_tests" (PInt 0)) 0 with
    | inl e => inl e
    | inr true => inr status_success
    | inr false => inr status_failed
    end
  else inr status_failed.

(** Lines 55-60: [coverage_color]. *)
Definition determine_coverage_color (coverage_pct : pyval)
  : pyexc + string :=
  match Py.ge_int coverage_pct 75 with
  | inl e => inl e
  | inr true => inr "✅"
  | inr false =>
      match Py.ge_int coverage_pct 50 with
      | inl e => inl e
      | inr true => inr "⚠️"
      | inr false => inr "❌"
      end
  end.

(** Lines 63-92: the header and the field grid. *)
Definition base_blocks (summary : list (string * pyval))
           (st : status_locals) (coverage_pct : pyval)
           (coverage_color : string) : list pyval :=
  [ PDict [ ("type", PStr "header");
            ("text", plain_text
               (status_emoji st ++ " Salesforce Test Results - "
                  ++ str (Py.dict_get summary "sandbox" (PStr "Unknown")))) ];
    PDict [ ("type", PStr "section");
            ("fields", PList
               [ mrkdwn ("*Environment:*" ++ nl
                   ++ str (Py.dict_get summary "sandbox" (PStr "Unknown")));
                 mrkdwn ("*Status:*" ++ nl ++ status_emoji st ++ " "
                   ++ overall_status st);
                 mrkdwn ("*Tests:*" ++ nl
                   ++ str (Py.dict_get summary "passed_tests" (PInt 0))
                   ++ "/"
                   ++ str (Py.dict_get summary "total_tests" (PInt 0))
                   ++ " passed");
                 mrkdwn ("*Coverage:*" ++ nl ++ str coverage_pct ++ "% "
                   ++ coverage_color) ]) ] ].

(** Lines 96-102: the block appended when there are failures. *)
Definition failed_tests_block (summary : list (string * pyval)) : pyval :=
  section_text
    ("⚠️ *" ++ str (Py.dict_get summary "failed_tests" (PInt 0))
       ++ " tests failed* - Immediate attention required").

(** Lines 106-112: the block appended when coverage is low. *)
Definition coverage_alert_block (coverage_pct : pyval) : pyval :=
  section_text
    ("📊 *Coverage Alert:* " ++ str coverage_pct
       ++ "% is below the recommended 75% threshold").

Definition repo_url (github_context : list (string * string)) : string :=
  Py.str_get github_context "server_url" "https://github.com" ++ "/"
    ++ Py.str_get github_context "repository" "unknown".

(** Lines 115-136: the two link buttons. *)
Definition actions_block (github_context : list (string * string))
  : pyval :=
  PDict [ ("type", PStr "actions");
          ("elements", PList
             [ PDict [ ("type", PStr "button");
                       ("text", plain_text "View Detailed Report");
                       ("url", PStr (repo_url github_context
                          ++ "/actions/runs/"
                          ++ Py.str_get github_context "run_id" "unknown"));
                       ("style", PStr "primary") ];
               PDict [ ("type", PStr "button");
                       ("text", plain_text "View Repository");
                       ("url", PStr (repo_url github_context)) ] ]) ].

(** Lines 139-147: the footer, with the clock's reading. *)
Definition context_block (github_context : list (string * string))
           (now : datetime) : pyval :=
  PDict [ ("type", PStr "context");
          ("elements", PList
             [ mrkdwn ("🤖 Triggered by: "
                 ++ Py.str_get github_context "trigger" "Unknown"
                 ++ " | 📅 " ++ strftime_ymd_hms_utc now) ]) ].

(** The fallback text of lines 157 and 163. *)
Definition fallback_text (summary : list (string * pyval))
           (st : status_locals) (coverage_pct : pyval) : string :=
  status_emoji st ++ " Salesforce tests " ++ Py.lower (overall_status st)
    ++ " for " ++ str (Py.dict_get summary "sandbox" (PStr "Unknown"))
    ++ " - " ++ str (Py.dict_get summary "passed_tests" (PInt 0)) ++ "/"
    ++ str (Py.dict_get summary "total_tests" (PInt 0))
    ++ " tests passed, " ++ str coverage_pct ++ "% coverage".

(** The body of [create_message_payload] once [summary] is known to be
    a dict. *)
Definition render (w : World) (self : SlackNotifier)
           (summary : list (string * pyval))
           (github_context : list (string * string)) : M pyval :=
  st <- lift (determine_status summary) ;;
  let coverage_pct := Py.dict_get summary "avg_coverage" (PInt 0) in
  coverage_color <- lift (determine_coverage_color coverage_pct) ;;
  let blocks := base_blocks summary st coverage_pct coverage_color in
  has_failures <-
    lift (Py.gt_int (Py.dict_get summary "failed_tests" (PInt 0)) 0) ;;
  let blocks :=
    if has_failures
    then (blocks ++ [failed_tests_block summary])%list else blocks in
  low_coverage <- lift (Py.lt_int coverage_pct 75) ;;
  let blocks :=
    if low_coverage
    then (blocks ++ [coverage_alert_block coverage_pct])%list
    else blocks in
  let blocks := (blocks ++ [actions_block github_context])%list in
  let blocks :=
    (blocks ++ [context_block github_context (w_now w)])%list in
  if Py.str_truthy (webhook_url self) then
    ret (webhook_payload self blocks
           (fallback_text summary st coverage_pct))
  else
    ret (bot_payload self blocks (fallback_text summary st coverage_pct)).

(** [create_message_payload]. Its first step is [summary.get], which
    only a dict has; every later [summary.get] then succeeds. *)
Definition create_message_payload (w : World) (self : SlackNotifier)
           (summary : pyval) (github_context : list (string * string))
  : M pyval :=
  match summary with
  | PDict d => render w self d github_context
  | _ => _ <- lift (Py.get summary "failed_tests" (PInt 0)) ;; ret PNone
  end.

(** [send_notification]. [None] is the result of falling off the end of
    the function, when neither credential is true. *)
Definition send_notification (w : World) (self : SlackNotifier)
           (payload : pyval) : M (option bool) :=
  try_except
    (if Py.str_truthy (webhook_url self) then
       response <- requests_post w
         (mkRequest (Py.str_value (webhook_url self)) payload
                    [("Content-Type", "application/json")] 30) ;;
       if (status_code response =? 200)%Z then
         print "✅ Slack notification sent successfully via webhook" ;;;
         ret (Some true)
       else
         print ("❌ Failed to send Slack notification via webhook: "
                  ++ Py.str_int (status_code response) ++ " - "
                  ++ text response) ;;;
         ret (Some false)
     else if Py.str_truthy (bot_token self) then
       response <- requests_post w
         (mkRequest bot_api_url payload
                    [("Authorization",
                      "Bearer " ++ Py.str_value (bot_token self));
                     ("Content-Type", "application/json")] 30) ;;
       result <- lift (json_loads (text response)) ;;
       ok <- lift (Py.get result "ok" PNone) ;;
       if Py.truthy ok then
         print "✅ Slack notification sent successfully via bot token" ;;;
         ret (Some true)
       else
         error <- lift (Py.get result "error" (PStr "Unknown error")) ;;
         print ("❌ Failed to send Slack notification via bot token: "
                  ++ str error) ;;;
         ret (Some false)
     else ret None)
    (fun e =>
       print ("❌ Exception while sending Slack notification: "
                ++ exc_msg e) ;;;
       ret (Some false)).

(** [send_test_results] *)
Definition send_test_results (w : World) (self : SlackNotifier)
           (summary_file : string)
           (github_context : list (string * string)) : M (option bool) :=
  summary <- load_test_summary w summary_file ;;
  payload <- create_message_payload w self summary github_context ;;
  send_notification w self payload.

(** The dict [main] builds from the arguments and the environment. *)
Definition main_github_context (w : World) : list (string * string) :=
  [ ("server_url",
     argv_or_env w 2 "GITHUB_SERVER_URL" "https://github.com");
    ("repository",
     argv_or_env w 3 "GITHUB_REPOSITORY" "unknown/unknown");
    ("run_id", argv_or_env w 4 "GITHUB_RUN_ID" "unknown");
    ("trigger", argv_or_env w 5 "GITHUB_EVENT_NAME" "unknown") ].

(** [main] *)
Definition main (w : World) : M unit :=
  (if Nat.ltb (List.length (w_argv w)) 2
   then print usage_line ;;; sys_exit 1
   else ret tt) ;;;
  let summary_file := nth 1 (w_argv w) "" in
  let github_context := main_github_context w in
  let webhook_url := w_getenv w "SLACK_WEBHOOK_URL" in
  let bot_token := w_getenv w "SLACK_BOT_TOKEN" in
  let channel := getenv_default w "SLACK_CHANNEL" "#salesforce-ci" in
  (if (negb (Py.str_truthy webhook_url)
       && negb (Py.str_truthy bot_token))%bool
   then print missing_credentials_line ;;; sys_exit 1
   else ret tt) ;;;
  try_except
    (notifier <-
       (match SlackNotifier_init webhook_url bot_token channel with
        | inl e => raise e
        | inr n => ret n
        end) ;;
     success <- send_test_results w notifier summary_file github_context ;;
     sys_exit (match success with Some true => 0 | _ => 1 end))
    (fun e => print ("❌ Error: " ++ exc_msg e) ;;; sys_exit 1).

(** The exit status of the process running [main()]: the code of
    [SystemExit]; 1 after an exception no one caught; 0 when the
    interpreter reaches the end of the script. *)
Definition exit_code (m : M unit) : Z :=
  match outcome m with
  | inl (SystemExit code) => code
  | inl (Exc _) => 1
  | inr _ => 0
  end.

(** The request [send_notification] issues in webhook mode. *)
Definition webhook_request (self : SlackNotifier) (payload : pyval)
  : request :=
  mkRequest (Py.str_value (webhook_url self)) payload
            [("Content-Type", "application/json")] 30.

(** The request it issues in bot-token mode. *)
Definition bot_request (self : SlackNotifier) (payload : pyval) : request :=
  mkRequest bot_api_url payload
            [("Authorization", "Bearer " ++ Py.str_value (bot_token self));
             ("Content-Type", "application/json")] 30.

(** The line printed by the [except] clause of [send_notification]. *)
Definition exception_line (e : pyexc) : event :=
  EPrint ("❌ Exception while sending Slack notification: " ++ exc_msg e).

(** The line [load_test_summary] prints before it falls back. *)
Definition warning_line (summary_file : string) (e : pyexc) : event :=
  EPrint ("Warning: Could not load summary file " ++ summary_file ++ ": "
            ++ exc_msg e).

(** The line printed by the [except] clause of [main]. *)
Definition error_line (e : pyexc) : event :=
  EPrint ("❌ Error: " ++ exc_msg e).

(** The exception that keeps the summary file from loading, if any:
    raised by [open] or the read, or by the parser. *)
Definition load_error (w : World) (summary_file : string) : option pyexc :=
  match w_open_read w summary_file with
  | inl e => Some e
  | inr content =>
      match json_loads content with
      | inl e => Some e
      | inr _ => None
      end
  end.

(** The notifier [main] constructs from the environment. *)
Definition main_notifier (w : World) : SlackNotifier :=
  mkNotifier (w_getenv w "SLACK_WEBHOOK_URL") (w_getenv w "SLACK_BOT_TOKEN")
             (getenv_default w "SLACK_CHANNEL" "#salesforce-ci").

(** The request of the mode the notifier is in. *)
Definition delivery_request (self : SlackNotifier) (payload : pyval)
  : request :=
  if Py.str_truthy (webhook_url self)
  then webhook_request self payload
  else bot_request self payload.

(** The five reads [create_message_payload] makes of a summary give the
    same values on two dicts. *)
Definition reads_agree (d1 d2 : list (string * pyval)) : Prop :=
  Py.dict_get d1 "sandbox" (PStr "Unknown")
  = Py.dict_get d2 "sandbox" (PStr "Unknown")
  /\ Py.dict_get d1 "total_tests" (PInt 0)
     = Py.dict_get d2 "total_tests" (PInt 0)
  /\ Py.dict_get d1 "passed_tests" (PInt 0)
     = Py.dict_get d2 "passed_tests" (PInt 0)
  /\ Py.dict_get d1 "failed_tests" (PInt 0)
     = Py.dict_get d2 "failed_tests" (PInt 0)
  /\ Py.dict_get d1 "avg_coverage" (PInt 0)
     = Py.dict_get d2 "avg_coverage" (PInt 0).

(** A credential that is absent or the empty string. *)
Definition missing (credential : option string) : Prop :=
  credential = None \/ credential = Some "".

(** ** Properties *)

(** *** Comparisons with an int literal *)

Lemma eq_int_PInt (n z : Z) : Py.eq_int (PInt n) z = (n =? z)%Z.
Proof.
  unfold Py.eq_int; cbn. rewrite Z.eqb_compare. now destruct (n ?= z)%Z.
Qed.

Lemma gt_int_PInt (n z : Z) : Py.gt_int (PInt n) z = inr (z <? n)%Z.
Proof.
  unfold Py.gt_int; cbn. rewrite Z.ltb_compare, (Z.compare_antisym n z).
  now destruct (n ?= z)%Z.
Qed.

Lemma ge_int_PInt (n z : Z) : Py.ge_int (PInt n) z = inr (z <=? n)%Z.
Proof.
  unfold Py.ge_int; cbn. rewrite Z.leb_compare, (Z.compare_antisym n z).
  now destruct (n ?= z)%Z.
Qed.

Lemma lt_int_PInt (n z : Z) : Py.lt_int (PInt n) z = inr (n <? z)%Z.
Proof.
  unfold Py.lt_int; cbn. rewrite Z.ltb_compare. now destruct (n ?= z)%Z.
Qed.

Lemma is_number_cmp (v : pyval) (z : Z) :
  Py.is_number v = true -> exists c, Py.num_cmp_int v z = Some c.
Proof.
  destruct v; cbn; try discriminate; eauto.
Qed.

Lemma gt_int_total (v : pyval) (z : Z) :
  Py.is_number v = true -> exists b, Py.gt_int v z = inr b.
Proof.
  intros H. destruct (is_number_cmp v z H) as [c Hc].
  unfold Py.gt_int. rewrite Hc. destruct c as [[ | | ] | ]; eauto.
Qed.

Lemma ge_int_total (v : pyval) (z : Z) :
  Py.is_number v = true -> exists b, Py.ge_int v z = inr b.
Proof.
  intros H. destruct (is_number_cmp v z H) as [c Hc].
  unfold Py.ge_int. rewrite Hc. destruct c as [[ | | ] | ]; eauto.
Qed.

Lemma lt_int_total (v : pyval) (z : Z) :
  Py.is_number v = true -> exists b, Py.lt_int v z = inr b.
Proof.
  intros H. destruct (is_number_cmp v z H) as [c Hc].
  unfold Py.lt_int. rewrite Hc. destruct c as [[ | | ] | ]; eauto.
Qed.

(** *** Rendering *)

Lemma bind_lift_inr {A B : Type} (r : pyexc + A) (a : A) (k : A -> M B) :
  r = inr a -> bind (lift r) k = k a.
Proof.
  intros ->. unfold bind, lift, ret. now destruct (k a).
Qed.

(** [render] either stops at the first comparison that raises, or
    returns the assembled payload; it leaves no event. *)
Lemma render_eq (w : World) (self : SlackNotifier)
      (d : list (string * pyval)) (ctx : list (string * string)) :
  render w self d ctx =
  match determine_status d with
  | inl e => ([], inl (Exc e))
  | inr st =>
    match determine_coverage_color
            (Py.dict_get d "avg_coverage" (PInt 0)) with
    | inl e => ([], inl (Exc e))
    | inr cc =>
      match Py.gt_int (Py.dict_get d "failed_tests" (PInt 0)) 0 with
      | inl e => ([], inl (Exc e))
      | inr hf =>
        match Py.lt_int (Py.dict_get d "avg_coverage" (PInt 0)) 75 with
        | inl e => ([], inl (Exc e))
        | inr lc =>
            ([], inr (choose_payload self
                        (assemble_blocks
                           (base_blocks d st
                              (Py.dict_get d "avg_coverage" (PInt 0)) cc)
                           (failed_tests_block d)
                           (coverage_alert_block
                              (Py.dict_get d "avg_coverage" (PInt 0)))
                           hf lc
                           [actions_block ctx;
                            context_block ctx (w_now w)])
                        (fallback_text d st
                           (Py.dict_get d "avg_coverage" (PInt 0)))))
        end
      end
    end
  end.
Proof.
  unfold render.
  destruct (determine_status d) as [e | st]; [reflexivity | ].
  rewrite (bind_lift_inr _ st) by reflexivity.
  destruct (determine_coverage_color _) as [e | cc]; [reflexivity | ].
  rewrite (bind_lift_inr _ cc) by reflexivity.
  destruct (Py.gt_int _ 0) as [e | hf]; [reflexivity | ].
  rewrite (bind_lift_inr _ hf) by reflexivity.
  destruct (Py.lt_int _ 75) as [e | lc]; [reflexivity | ].
  rewrite (bind_lift_inr _ lc) by reflexivity.
  unfold choose_payload, assemble_blocks.
  destruct (Py.str_truthy (webhook_url self)), hf, lc; reflexivity.
Qed.

Lemma render_trace (w : World) (self : SlackNotifier)
      (d : list (string * pyval)) (ctx : list (string * string)) :
  trace (render w self d ctx) = [].
Proof.
  rewrite render_eq.
  destruct (determine_status d); [reflexivity | ].
  destruct (determine_coverage_color _); [reflexivity | ].
  destruct (Py.gt_int _ 0); [reflexivity | ].
  destruct (Py.lt_int _ 75); reflexivity.
Qed.

Lemma render_returns (w : World) (self : SlackNotifier)
      (d : list (string * pyval)) (ctx : list (string * string))
      (p : pyval) :
  outcome (render w self d ctx) = inr p ->
  exists st cc hf lc,
    determine_status d = inr st
    /\ determine_coverage_color (Py.dict_get d "avg_coverage" (PInt 0))
       = inr cc
    /\ Py.gt_int (Py.dict_get d "failed_tests" (PInt 0)) 0 = inr hf
    /\ Py.lt_int (Py.dict_get d "avg_coverage" (PInt 0)) 75 = inr lc
    /\ p = choose_payload self
             (assemble_blocks
                (base_blocks d st (Py.dict_get d "avg_coverage" (PInt 0)) cc)
                (failed_tests_block d)
                (coverage_alert_block
                   (Py.dict_get d "avg_coverage" (PInt 0)))
                hf lc
                [actions_block ctx; context_block ctx (w_now w)])
             (fallback_text d st (Py.dict_get d "avg_coverage" (PInt 0))).
Proof.
  rewrite render_eq.
  destruct (determine_status d) as [e | st]; [discriminate | ].
  destruct (determine_coverage_color _) as [e | cc]; [discriminate | ].
  destruct (Py.gt_int _ 0) as [e | hf]; [discriminate | ].
  destruct (Py.lt_int _ 75) as [e | lc]; [discriminate | ].
  cbn. intros [= <-]. exists st, cc, hf, lc. repeat split; reflexivity.
Qed.

(** On a summary whose compared fields are numbers no comparison raises,
    so a payload is returned. *)
Lemma render_numeric (w : World) (self : SlackNotifier)
      (d : list (string * pyval)) (ctx : list (string * string)) :
  numeric_summary d = true ->
  exists p, render w self d ctx = ([], inr p).
Proof.
  unfold numeric_summary. intros H.
  apply andb_true_iff in H as [H Hcov]. apply andb_true_iff in H as [Hf Ht].
  rewrite render_eq. unfold determine_status, determine_coverage_color.
  destruct (gt_int_total _ 0 Ht) as [bt ->].
  destruct (gt_int_total _ 0 Hf) as [bf ->].
  destruct (ge_int_total _ 75 Hcov) as [b75 ->].
  destruct (ge_int_total _ 50 Hcov) as [b50 ->].
  destruct (lt_int_total _ 75 Hcov) as [bl ->].
  destruct (Py.eq_int _ 0), bt, b75, b50; eauto.
Qed.

Lemma dict_get_lookup (d : list (string * pyval)) (key : string)
      (default : pyval) :
  Py.dict_get d key default
  = match dict_lookup d key with
    | Some v => v
    | None => default
    end.
Proof.
  induction d as [ | [k v] rest IH]; cbn; [reflexivity | ].
  now destruct (k =? key)%string.
Qed.

(** *** What the observers read off a rendered payload *)

Lemma payload_blocks_choose (self : SlackNotifier) (blocks : list pyval)
      (fallback : string) :
  payload_blocks (choose_payload self blocks fallback) = blocks.
Proof.
  unfold choose_payload. now destruct (Py.str_truthy (webhook_url self)).
Qed.

Lemma payload_text_choose (self : SlackNotifier) (blocks : list pyval)
      (fallback : string) :
  payload_text (choose_payload self blocks fallback) = Some fallback.
Proof.
  unfold choose_payload. now destruct (Py.str_truthy (webhook_url self)).
Qed.

Lemma status_field_choose (self : SlackNotifier)
      (d : list (string * pyval)) (st : status_locals) (cov : pyval)
      (cc : string) (fb ab : pyval) (hf lc : bool) (rest : list pyval)
      (fallback : string) :
  status_field
    (choose_payload self
       (assemble_blocks (base_blocks d st cov cc) fb ab hf lc rest) fallback)
  = Some ("*Status:*" ++ nl ++ status_emoji st ++ " " ++ overall_status st).
Proof.
  unfold choose_payload. now destruct (Py.str_truthy (webhook_url self)).
Qed.

Lemma header_line_choose (self : SlackNotifier)
      (d : list (string * pyval)) (st : status_locals) (cov : pyval)
      (cc : string) (fb ab : pyval) (hf lc : bool) (rest : list pyval)
      (fallback : string) :
  header_line
    (choose_payload self
       (assemble_blocks (base_blocks d st cov cc) fb ab hf lc rest) fallback)
  = Some (status_emoji st ++ " Salesforce Test Results - "
            ++ str (Py.dict_get d "sandbox" (PStr "Unknown"))).
Proof.
  unfold choose_payload. now destruct (Py.str_truthy (webhook_url self)).
Qed.

Lemma coverage_field_choose (self : SlackNotifier)
      (d : list (string * pyval)) (st : status_locals) (cov : pyval)
      (cc : string) (fb ab : pyval) (hf lc : bool) (rest : list pyval)
      (fallback : string) :
  coverage_field
    (choose_payload self
       (assemble_blocks (base_blocks d st cov cc) fb ab hf lc rest) fallback)
  = Some ("*Coverage:*" ++ nl ++ str cov ++ "% " ++ cc).
Proof.
  unfold choose_payload. now destruct (Py.str_truthy (webhook_url self)).
Qed.

Lemma marks_status_rendered (self : SlackNotifier)
      (d : list (string * pyval)) (st : status_locals) (cov : pyval)
      (cc : string) (fb ab : pyval) (hf lc : bool) (rest : list pyval) :
  marks_status
    (choose_payload self
       (assemble_blocks (base_blocks d st cov cc) fb ab hf lc rest)
       (fallback_text d st cov))
    st.
Proof.
  unfold marks_status.
  rewrite status_field_choose, header_line_choose, payload_text_choose.
  split; [reflexivity | split]; eexists.
  - reflexivity.
  - unfold fallback_text. repeat f_equal.
Qed.

(** *** Overall status *)

Lemma determine_status_cases (d : list (string * pyval))
      (st : status_locals) :
  determine_status d = inr st ->
  (st = status_success
   /\ Py.eq_int (Py.dict_get d "failed_tests" (PInt 0)) 0 = true
   /\ Py.gt_int (Py.dict_get d "total_tests" (PInt 0)) 0 = inr true)
  \/ (st = status_failed
      /\ ~ (Py.eq_int (Py.dict_get d "failed_tests" (PInt 0)) 0 = true
            /\ Py.gt_int (Py.dict_get d "total_tests" (PInt 0)) 0
               = inr true)).
Proof.
  unfold determine_status.
  destruct (Py.eq_int _ 0) eqn:Ef.
  - destruct (Py.gt_int _ 0) as [e | [ | ]] eqn:Et; [discriminate | | ].
    + intros [= <-]. left. auto.
    + intros [= <-]. right. split; [reflexivity | ].
      intros [_ H]. discriminate.
  - intros [= <-]. right. split; [reflexivity | ].
    intros [H _]. discriminate.
Qed.

(** The colour the locals select reaches neither the blocks nor the
    fallback text. *)
Lemma color_is_not_rendered (d : list (string * pyval))
      (c1 c2 emoji status : string) (cov : pyval) (cc : string) :
  base_blocks d (mkStatus c1 emoji status) cov cc
  = base_blocks d (mkStatus c2 emoji status) cov cc
  /\ fallback_text d (mkStatus c1 emoji status) cov
     = fallback_text d (mkStatus c2 emoji status) cov.
Proof.
  split; reflexivity.
Qed.

(** C1. For every summary record, the payload [create_message_payload]
    renders shows SUCCESS (the locals select green and the check mark)
    exactly when [failed_tests == 0 and total_tests > 0], and FAILED (red,
    the cross) in every other case, [total_tests == 0] and absent fields
    (read as 0) included. A payload is rendered whenever the compared
    fields are numbers. *)
Theorem C1_overall_status_success_iff (w : World) (self : SlackNotifier)
        (summary : list (string * pyval)) (ctx : list (string * string)) :
  (numeric_summary summary = true ->
   exists p, create_message_payload w self (PDict summary) ctx
             = ([], inr p))
  /\ (forall p,
        outcome (create_message_payload w self (PDict summary) ctx) = inr p ->
        exists st,
          determine_status summary = inr st
          /\ marks_status p st
          /\ (st = mkStatus "#36a64f" "✅" "SUCCESS"
              \/ st = mkStatus "#ff0000" "❌" "FAILED")
          /\ (st = mkStatus "#36a64f" "✅" "SUCCESS" <->
              Py.eq_int (Py.dict_get summary "failed_tests" (PInt 0)) 0
              = true
              /\ Py.gt_int (Py.dict_get summary "total_tests" (PInt 0)) 0
                 = inr true)
          /\ (st = mkStatus "#ff0000" "❌" "FAILED" <->
              ~ (Py.eq_int (Py.dict_get summary "failed_tests" (PInt 0)) 0
                 = true
                 /\ Py.gt_int (Py.dict_get summary "total_tests" (PInt 0)) 0
                    = inr true))
          /\ (forall failed total : Z,
                Py.dict_get summary "failed_tests" (PInt 0) = PInt failed ->
                Py.dict_get summary "total_tests" (PInt 0) = PInt total ->
                (st = mkStatus "#36a64f" "✅" "SUCCESS" <->
                 failed = 0 /\ 0 < total)%Z)
          /\ (dict_lookup summary "total_tests" = None ->
              st = mkStatus "#ff0000" "❌" "FAILED")
          /\ (dict_lookup summary "failed_tests" = None ->
              (st = mkStatus "#36a64f" "✅" "SUCCESS" <->
               Py.gt_int (Py.dict_get summary "total_tests" (PInt 0)) 0
               = inr true))).
Proof.
  split.
  - intros Hnum. exact (render_numeric w self summary ctx Hnum).
  - intros p Hp. cbn [create_message_payload] in Hp.
    destruct (render_returns _ _ _ _ _ Hp)
      as (st & cc & hf & lc & Hst & _ & _ & _ & ->).
    exists st. split; [exact Hst | ]. split; [apply marks_status_rendered | ].
    fold status_success status_failed.
    assert (Hiff : st = status_success <->
                   Py.eq_int (Py.dict_get summary "failed_tests" (PInt 0)) 0
                   = true
                   /\ Py.gt_int (Py.dict_get summary "total_tests" (PInt 0)) 0
                      = inr true).
    { destruct (determine_status_cases _ _ Hst) as [(-> & H1 & H2) | [-> Hn]].
      - split; auto.
      - split; [discriminate | intros H; now destruct (Hn H)]. }
    assert (Habsent : dict_lookup summary "failed_tests" = None ->
                      (st = status_success <->
                       Py.gt_int (Py.dict_get summary "total_tests" (PInt 0))
                                 0 = inr true)).
    { intros Hl. rewrite Hiff, (dict_get_lookup summary "failed_tests"), Hl.
      split; [now intros [_ H] | now split]. }
    destruct (determine_status_cases _ _ Hst) as [(E & H1 & H2) | [E Hn]].
    + subst st. split; [now left | ]. split; [exact Hiff | ].
      split; [split; [discriminate | intros H; now destruct H] | ].
      split.
      * intros failed total Ef Et. rewrite Hiff, Ef, Et.
        rewrite eq_int_PInt, gt_int_PInt. split.
        -- intros [Ha Hb]. injection Hb as Hb. lia.
        -- intros [Ha Hb]. split; [lia | ]. f_equal. lia.
      * split; [ | exact Habsent].
        intros Hl. rewrite dict_get_lookup, Hl in H2. discriminate.
    + subst st. split; [now right | ]. split; [exact Hiff | ].
      split; [split; auto | ].
      split.
      * intros failed total Ef Et. rewrite Hiff, Ef, Et.
        rewrite eq_int_PInt, gt_int_PInt. split.
        -- intros [Ha Hb]. injection Hb as Hb. lia.
        -- intros [Ha Hb]. split; [lia | ]. f_equal. lia.
      * split; [reflexivity | exact Habsent].
Qed.

(** *** Coverage tiers *)

Lemma lt_int_true (v : pyval) (z : Z) :
  Py.lt_int v z = inr true <-> Py.num_cmp_int v z = Some (Some Lt).
Proof.
  unfold Py.lt_int.
  destruct (Py.num_cmp_int v z) as [[[ | | ] | ] | ];
    split; intros H; try discriminate; reflexivity.
Qed.

Lemma ge_int_true (v : pyval) (z : Z) :
  Py.ge_int v z = inr true <->
  Py.num_cmp_int v z = Some (Some Gt) \/ Py.num_cmp_int v z = Some (Some Eq).
Proof.
  unfold Py.ge_int.
  destruct (Py.num_cmp_int v z) as [[[ | | ] | ] | ];
    split; intros H; try discriminate; auto;
    destruct H; discriminate.
Qed.

(** A float below an int is below every larger int. *)
Lemma float_cmp_int_lt_mono (f : spec_float) (a b : Z) :
  (a <= b)%Z ->
  Py.float_cmp_int f a = Some Lt -> Py.float_cmp_int f b = Some Lt.
Proof.
  intros Hab. destruct f as [s | s | | s m e]; cbn [Py.float_cmp_int].
  - intros H. assert (H' : (0 < a)%Z) by (unfold Z.lt; congruence).
    f_equal. apply Z.compare_lt_iff. lia.
  - trivial.
  - trivial.
  - destruct (0 <=? e)%Z; intros H.
    + assert (H' : ((if s then Z.neg m else Z.pos m) * 2 ^ e < a)%Z)
        by (unfold Z.lt; congruence).
      f_equal. apply Z.compare_lt_iff. lia.
    + assert (H' : ((if s then Z.neg m else Z.pos m) < a * 2 ^ (- e))%Z)
        by (unfold Z.lt; congruence).
      f_equal. apply Z.compare_lt_iff.
      apply Z.lt_le_trans with (a * 2 ^ (- e))%Z; [exact H' | ].
      apply Z.mul_le_mono_nonneg_r; [ | exact Hab].
      apply Z.pow_nonneg. lia.
Qed.

Lemma num_cmp_int_lt_mono (v : pyval) (a b : Z) :
  (a <= b)%Z ->
  Py.num_cmp_int v a = Some (Some Lt) -> Py.num_cmp_int v b = Some (Some Lt).
Proof.
  intros Hab. destruct v as [ | b0 | n | f | s | l | d];
    cbn [Py.num_cmp_int]; try discriminate.
  - intros H. assert (H' : (Z.b2z b0 < a)%Z) by (unfold Z.lt; congruence).
    do 2 f_equal. apply Z.compare_lt_iff. lia.
  - intros H. assert (H' : (n < a)%Z) by (unfold Z.lt; congruence).
    do 2 f_equal. apply Z.compare_lt_iff. lia.
  - intros H. assert (H' : Py.float_cmp_int f a = Some Lt) by congruence.
    f_equal. now apply float_cmp_int_lt_mono with a.
Qed.

Lemma determine_coverage_color_cases (c : pyval) (cc : string) :
  determine_coverage_color c = inr cc ->
  (Py.ge_int c 75 = inr true /\ cc = "✅")
  \/ (Py.ge_int c 75 = inr false /\ Py.ge_int c 50 = inr true
      /\ cc = "⚠️")
  \/ (Py.ge_int c 75 = inr false /\ Py.ge_int c 50 = inr false
      /\ cc = "❌").
Proof.
  unfold determine_coverage_color.
  destruct (Py.ge_int c 75) as [e | [ | ]]; [discriminate | | ].
  - intros [= <-]. auto.
  - destruct (Py.ge_int c 50) as [e | [ | ]]; [discriminate | | ];
      intros [= <-]; auto.
Qed.

(** The three tiers, by Python's own comparisons. *)
Lemma coverage_color_tiers (c : pyval) (cc : string) :
  determine_coverage_color c = inr cc ->
  (Py.ge_int c 75 = inr true -> cc = "✅")
  /\ (Py.ge_int c 50 = inr true -> Py.lt_int c 75 = inr true -> cc = "⚠️")
  /\ (Py.lt_int c 50 = inr true -> cc = "❌").
Proof.
  intros H.
  destruct (determine_coverage_color_cases _ _ H)
    as [[H75 ->] | [(H75 & H50 & ->) | (H75 & H50 & ->)]].
  - split; [reflexivity | ]. split.
    + intros _ Hlt. apply lt_int_true in Hlt. apply ge_int_true in H75.
      rewrite Hlt in H75. destruct H75; discriminate.
    + intros Hlt. apply lt_int_true in Hlt.
      apply (num_cmp_int_lt_mono c 50 75) in Hlt; [ | lia].
      apply ge_int_true in H75. rewrite Hlt in H75.
      destruct H75; discriminate.
  - split; [intros H'; rewrite H' in H75; discriminate | ].
    split; [reflexivity | ].
    intros Hlt. apply lt_int_true in Hlt. apply ge_int_true in H50.
    rewrite Hlt in H50. destruct H50; discriminate.
  - split; [intros H'; rewrite H' in H75; discriminate | ].
    split; [ | reflexivity].
    intros H'. rewrite H' in H50. discriminate.
Qed.

(** C2. The coverage cell of the rendered payload ends with the good
    marker when [avg_coverage >= 75], the warning marker when
    [50 <= avg_coverage < 75] and the bad marker when [avg_coverage < 50],
    an absent field being read as 0; 75 is good and 50 is a warning. *)
Theorem C2_coverage_marker_tiers (w : World) (self : SlackNotifier)
        (summary : list (string * pyval)) (ctx : list (string * string)) :
  (numeric_summary summary = true ->
   exists p, create_message_payload w self (PDict summary) ctx
             = ([], inr p))
  /\ (forall p c,
        outcome (create_message_payload w self (PDict summary) ctx) = inr p ->
        c = Py.dict_get summary "avg_coverage" (PInt 0) ->
        (Py.ge_int c 75 = inr true -> marks_coverage p (str c) "✅")
        /\ (Py.ge_int c 50 = inr true -> Py.lt_int c 75 = inr true ->
            marks_coverage p (str c) "⚠️")
        /\ (Py.lt_int c 50 = inr true -> marks_coverage p (str c) "❌")
        /\ (forall n : Z,
              c = PInt n ->
              ((75 <= n)%Z -> marks_coverage p (Py.str_int n) "✅")
              /\ ((50 <= n < 75)%Z -> marks_coverage p (Py.str_int n) "⚠️")
              /\ ((n < 50)%Z -> marks_coverage p (Py.str_int n) "❌"))
        /\ (c = PInt 75 -> marks_coverage p "75" "✅")
        /\ (c = PInt 50 -> marks_coverage p "50" "⚠️")
        /\ (dict_lookup summary "avg_coverage" = None ->
            marks_coverage p "0" "❌")).
Proof.
  split.
  - intros Hnum. exact (render_numeric w self summary ctx Hnum).
  - intros p c Hp ->. cbn [create_message_payload] in Hp.
    destruct (render_returns _ _ _ _ _ Hp)
      as (st & cc & hf & lc & _ & Hcc & _ & _ & ->).
    unfold marks_coverage. rewrite coverage_field_choose.
    destruct (coverage_color_tiers _ _ Hcc) as (Hgood & Hwarn & Hbad).
    assert (Hint : forall n : Z,
               Py.dict_get summary "avg_coverage" (PInt 0) = PInt n ->
               ((75 <= n)%Z -> cc = "✅")
               /\ ((50 <= n < 75)%Z -> cc = "⚠️")
               /\ ((n < 50)%Z -> cc = "❌")).
    { intros n En. rewrite En in Hgood, Hwarn, Hbad.
      rewrite !ge_int_PInt in *. rewrite !lt_int_PInt in *.
      split; [ | split]; intros Hn.
      - apply Hgood. f_equal. lia.
      - apply Hwarn; f_equal; lia.
      - apply Hbad. f_equal. lia. }
    split; [intros H; now rewrite (Hgood H) | ].
    split; [intros H H'; now rewrite (Hwarn H H') | ].
    split; [intros H; now rewrite (Hbad H) | ].
    split.
    + intros n En. destruct (Hint n En) as (H1 & H2 & H3). rewrite En. cbn [str].
      split; [ | split]; intros Hn.
      * now rewrite (H1 Hn).
      * now rewrite (H2 Hn).
      * now rewrite (H3 Hn).
    + split; [ | split]; intros En.
      * destruct (Hint _ En) as (H1 & H2 & H3); rewrite En.
        rewrite H1 by lia. reflexivity.
      * destruct (Hint _ En) as (H1 & H2 & H3); rewrite En.
        rewrite H2 by lia. reflexivity.
      * assert (E0 : Py.dict_get summary "avg_coverage" (PInt 0) = PInt 0)
          by (now rewrite dict_get_lookup, En).
        destruct (Hint _ E0) as (H1 & H2 & H3); rewrite E0.
        rewrite H3 by lia. reflexivity.
Qed.

(** *** Conditional blocks *)

Lemma failure_callout_recognised (d : list (string * pyval)) :
  is_failure_callout (failed_tests_block d) = true.
Proof.
  reflexivity.
Qed.

Lemma coverage_alert_recognised (c : pyval) :
  is_coverage_alert (coverage_alert_block c) = true.
Proof.
  reflexivity.
Qed.

(** Which blocks of the assembled list are callouts and alerts. *)
Lemma assembled_failure_callout (d : list (string * pyval))
      (st : status_locals) (c : pyval) (cc : string)
      (ctx : list (string * string)) (now : datetime) (hf lc : bool) :
  existsb is_failure_callout
    (assemble_blocks (base_blocks d st c cc) (failed_tests_block d)
       (coverage_alert_block c) hf lc
       [actions_block ctx; context_block ctx now])
  = hf.
Proof.
  destruct hf, lc; reflexivity.
Qed.

Lemma assembled_coverage_alert (d : list (string * pyval))
      (st : status_locals) (c : pyval) (cc : string)
      (ctx : list (string * string)) (now : datetime) (hf lc : bool) :
  existsb is_coverage_alert
    (assemble_blocks (base_blocks d st c cc) (failed_tests_block d)
       (coverage_alert_block c) hf lc
       [actions_block ctx; context_block ctx now])
  = lc.
Proof.
  destruct hf, lc; reflexivity.
Qed.

(** C4. The rendered payload holds the failure callout exactly when
    [failed_tests > 0] and the coverage alert exactly when
    [avg_coverage < 75]; each depends on its own condition only, and both
    are there when both conditions hold. *)
Theorem C4_conditional_blocks (w : World) (self : SlackNotifier)
        (summary : list (string * pyval)) (ctx : list (string * string)) :
  (numeric_summary summary = true ->
   exists p, create_message_payload w self (PDict summary) ctx
             = ([], inr p))
  /\ (forall p failed c,
        outcome (create_message_payload w self (PDict summary) ctx) = inr p ->
        failed = Py.dict_get summary "failed_tests" (PInt 0) ->
        c = Py.dict_get summary "avg_coverage" (PInt 0) ->
        (existsb is_failure_callout (payload_blocks p) = true <->
         Py.gt_int failed 0 = inr true)
        /\ (existsb is_coverage_alert (payload_blocks p) = true <->
            Py.lt_int c 75 = inr true)
        /\ (Py.gt_int failed 0 = inr true ->
            In (failed_tests_block summary) (payload_blocks p))
        /\ (Py.lt_int c 75 = inr true ->
            In (coverage_alert_block c) (payload_blocks p))
        /\ (Py.gt_int failed 0 = inr true -> Py.lt_int c 75 = inr true ->
            existsb is_failure_callout (payload_blocks p) = true
            /\ existsb is_coverage_alert (payload_blocks p) = true)
        /\ (forall n : Z,
              failed = PInt n ->
              (existsb is_failure_callout (payload_blocks p) = true <->
               (0 < n)%Z))
        /\ (forall n : Z,
              c = PInt n ->
              (existsb is_coverage_alert (payload_blocks p) = true <->
               (n < 75)%Z))).
Proof.
  split.
  - intros Hnum. exact (render_numeric w self summary ctx Hnum).
  - intros p failed c Hp -> ->. cbn [create_message_payload] in Hp.
    destruct (render_returns _ _ _ _ _ Hp)
      as (st & cc & hf & lc & _ & _ & Hhf & Hlc & ->).
    rewrite payload_blocks_choose.
    rewrite assembled_failure_callout, assembled_coverage_alert.
    rewrite Hhf, Hlc.
    assert (Hinr : forall b : bool, @inr pyexc bool b = inr true <-> b = true).
    { intros b. split; [now intros [= ->] | now intros ->]. }
    split; [symmetry; apply Hinr | ].
    split; [symmetry; apply Hinr | ].
    split.
    { intros [= ->]. unfold assemble_blocks.
      apply in_or_app. right. apply in_or_app. left. now left. }
    split.
    { intros [= ->]. unfold assemble_blocks.
      apply in_or_app. right. apply in_or_app. right.
      apply in_or_app. left. now left. }
    split.
    { intros [= ->] [= ->]. split; reflexivity. }
    split.
    + intros n En. rewrite En, gt_int_PInt in Hhf. injection Hhf as <-.
      rewrite Z.ltb_lt. reflexivity.
    + intros n En. rewrite En, lt_int_PInt in Hlc. injection Hlc as <-.
      rewrite Z.ltb_lt. reflexivity.
Qed.

(** *** Delivery *)

Lemma send_notification_webhook (w : World) (self : SlackNotifier)
      (payload : pyval) :
  Py.str_truthy (webhook_url self) = true ->
  send_notification w self payload =
  match w_post w (webhook_request self payload) with
  | inl e =>
      ([EPost (webhook_request self payload); exception_line e],
       inr (Some false))
  | inr resp =>
      if (status_code resp =? 200)%Z then
        ([EPost (webhook_request self payload);
          EPrint "✅ Slack notification sent successfully via webhook"],
         inr (Some true))
      else
        ([EPost (webhook_request self payload);
          EPrint ("❌ Failed to send Slack notification via webhook: "
                    ++ Py.str_int (status_code resp) ++ " - " ++ text resp)],
         inr (Some false))
  end.
Proof.
  intros Hw. unfold send_notification, webhook_request, exception_line.
  rewrite Hw. unfold requests_post.
  destruct (w_post w _) as [e | resp]; [reflexivity | ].
  cbn. destruct (status_code resp =? 200)%Z; reflexivity.
Qed.

Lemma send_notification_bot (w : World) (self : SlackNotifier)
      (payload : pyval) :
  Py.str_truthy (webhook_url self) = false ->
  Py.str_truthy (bot_token self) = true ->
  send_notification w self payload =
  match w_post w (bot_request self payload) with
  | inl e =>
      ([EPost (bot_request self payload); exception_line e],
       inr (Some false))
  | inr resp =>
      match json_loads (text resp) with
      | inl e =>
          ([EPost (bot_request self payload); exception_line e],
           inr (Some false))
      | inr result =>
          match Py.get result "ok" PNone with
          | inl e =>
              ([EPost (bot_request self payload); exception_line e],
               inr (Some false))
          | inr ok =>
              if Py.truthy ok then
                ([EPost (bot_request self payload);
                  EPrint
                    "✅ Slack notification sent successfully via bot token"],
                 inr (Some true))
              else
                ([EPost (bot_request self payload);
                  EPrint
                    ("❌ Failed to send Slack notification via bot token: "
                       ++ match Py.get result "error"
                                  (PStr "Unknown error") with
                          | inr error => str error
                          | inl _ => ""
                          end)],
                 inr (Some false))
          end
      end
  end.
Proof.
  intros Hw Hb. unfold send_notification, bot_request, exception_line.
  rewrite Hw, Hb. unfold requests_post.
  destruct (w_post w _) as [e | resp]; [reflexivity | ].
  cbn. destruct (json_loads (text resp)) as [e | result]; [reflexivity | ].
  cbn. destruct result; try reflexivity.
  cbn. destruct (Py.truthy _); reflexivity.
Qed.

(** What [__init__] guarantees of the object it returns. *)
Lemma SlackNotifier_init_inr (wh bt : option string) (ch : string)
      (self : SlackNotifier) :
  SlackNotifier_init wh bt ch = inr self ->
  self = mkNotifier wh bt ch
  /\ (Py.str_truthy (webhook_url self) = true
      \/ (Py.str_truthy (webhook_url self) = false
          /\ Py.str_truthy (bot_token self) = true)).
Proof.
  unfold SlackNotifier_init.
  destruct (Py.str_truthy wh) eqn:Hw, (Py.str_truthy bt) eqn:Hb; cbn;
    try discriminate; intros [= <-]; cbn; auto.
Qed.

(** C5. On a constructed notifier [send_notification] returns a boolean
    and raises nothing. In webhook mode the boolean is true exactly when
    the one POST answers status 200; in bot-token mode, exactly when the
    body of the answer parses to an object whose [ok] is truthy. A
    transport exception or a body that does not parse gives false and the
    diagnostic line. *)
Theorem C5_send_notification_boolean (w : World)
        (wh bt : option string) (ch : string) (self : SlackNotifier)
        (payload : pyval) :
  SlackNotifier_init wh bt ch = inr self ->
  exists (b : bool) (req : request),
    outcome (send_notification w self payload) = inr (Some b)
    /\ posts (trace (send_notification w self payload)) = [req]
    /\ (Py.str_truthy (webhook_url self) = true ->
        req = webhook_request self payload
        /\ (b = true <->
            exists resp, w_post w req = inr resp
                         /\ status_code resp = 200%Z))
    /\ (Py.str_truthy (webhook_url self) = false ->
        req = bot_request self payload
        /\ (b = true <->
            exists resp result,
              w_post w req = inr resp
              /\ json_loads (text resp) = inr (PDict result)
              /\ Py.truthy (Py.dict_get result "ok" PNone) = true))
    /\ (forall e, w_post w req = inl e ->
          b = false
          /\ In (exception_line e) (trace (send_notification w self payload)))
    /\ (Py.str_truthy (webhook_url self) = false ->
        forall resp e,
          w_post w req = inr resp -> json_loads (text resp) = inl e ->
          b = false
          /\ In (exception_line e)
                (trace (send_notification w self payload))).
Proof.
  intros Hinit.
  destruct (SlackNotifier_init_inr _ _ _ _ Hinit) as [_ [Hw | [Hw Hb]]].
  - rewrite (send_notification_webhook w self payload Hw).
    destruct (w_post w (webhook_request self payload)) as [e | resp] eqn:Hpost.
    + exists false, (webhook_request self payload).
      split; [reflexivity | ]. split; [reflexivity | ].
      split.
      { intros _. split; [reflexivity | ]. split; [discriminate | ].
        intros (resp & Hr & _). rewrite Hpost in Hr. discriminate. }
      split; [intros H; rewrite Hw in H; discriminate | ].
      split.
      { intros e' He'. rewrite Hpost in He'. injection He' as <-.
        split; [reflexivity | ]. cbn. auto. }
      intros H; rewrite Hw in H; discriminate.
    + destruct (status_code resp =? 200)%Z eqn:Hs.
      * exists true, (webhook_request self payload).
        split; [reflexivity | ]. split; [reflexivity | ].
        split.
        { intros _. split; [reflexivity | ]. split; [ | reflexivity].
          intros _. exists resp. split; [exact Hpost | ].
          now apply Z.eqb_eq. }
        split; [intros H; rewrite Hw in H; discriminate | ].
        split; [intros e He; rewrite Hpost in He; discriminate | ].
        intros H; rewrite Hw in H; discriminate.
      * exists false, (webhook_request self payload).
        split; [reflexivity | ]. split; [reflexivity | ].
        split.
        { intros _. split; [reflexivity | ]. split; [discriminate | ].
          intros (resp' & Hr & Hc). rewrite Hpost in Hr. injection Hr as <-.
          apply Z.eqb_neq in Hs. contradiction. }
        split; [intros H; rewrite Hw in H; discriminate | ].
        split; [intros e He; rewrite Hpost in He; discriminate | ].
        intros H; rewrite Hw in H; discriminate.
  - rewrite (send_notification_bot w self payload Hw Hb).
    destruct (w_post w (bot_request self payload)) as [e | resp] eqn:Hpost.
    + exists false, (bot_request self payload).
      split; [reflexivity | ]. split; [reflexivity | ].
      split; [intros H; rewrite Hw in H; discriminate | ].
      split.
      { intros _. split; [reflexivity | ]. split; [discriminate | ].
        intros (resp & result & Hr & _). rewrite Hpost in Hr. discriminate. }
      split.
      { intros e' He'. rewrite Hpost in He'. injection He' as <-.
        split; [reflexivity | ]. cbn. auto. }
      intros _ resp e' Hr. rewrite Hpost in Hr. discriminate.
    + destruct (json_loads (text resp)) as [e | result] eqn:Hjson.
      * exists false, (bot_request self payload).
        split; [reflexivity | ]. split; [reflexivity | ].
        split; [intros H; rewrite Hw in H; discriminate | ].
        split.
        { intros _. split; [reflexivity | ]. split; [discriminate | ].
          intros (resp' & result & Hr & Hj & _).
          rewrite Hpost in Hr. injection Hr as <-.
          rewrite Hjson in Hj. discriminate. }
        split; [intros e' He'; rewrite Hpost in He'; discriminate | ].
        intros _ resp' e' Hr Hj. rewrite Hpost in Hr. injection Hr as <-.
        rewrite Hjson in Hj. injection Hj as <-.
        split; [reflexivity | ]. cbn. auto.
      * assert (Hno : forall resp' e',
                   w_post w (bot_request self payload) = inr resp' ->
                   json_loads (text resp') = inl e' -> False).
        { intros resp' e' Hr Hj. rewrite Hpost in Hr. injection Hr as <-.
          rewrite Hjson in Hj. discriminate. }
        destruct (Py.get result "ok" PNone) as [e | ok] eqn:Hok.
        -- exists false, (bot_request self payload).
           split; [reflexivity | ]. split; [reflexivity | ].
           split; [intros H; rewrite Hw in H; discriminate | ].
           split.
           { intros _. split; [reflexivity | ]. split; [discriminate | ].
             intros (resp' & result' & Hr & Hj & _).
             rewrite Hpost in Hr. injection Hr as <-.
             rewrite Hjson in Hj. injection Hj as ->.
             cbn in Hok. discriminate. }
           split; [intros e' He'; rewrite Hpost in He'; discriminate | ].
           intros _ resp' e' Hr Hj. destruct (Hno _ _ Hr Hj).
        -- destruct result as [ | | | | | | d]; cbn in Hok;
             try discriminate.
           injection Hok as <-.
           destruct (Py.truthy (Py.dict_get d "ok" PNone)) eqn:Ht.
           ++ exists true, (bot_request self payload).
              split; [reflexivity | ]. split; [reflexivity | ].
              split; [intros H; rewrite Hw in H; discriminate | ].
              split.
              { intros _. split; [reflexivity | ]. split; [ | reflexivity].
                intros _. exists resp, d. auto. }
              split; [intros e' He'; rewrite Hpost in He'; discriminate | ].
              intros _ resp' e' Hr Hj. destruct (Hno _ _ Hr Hj).
           ++ exists false, (bot_request self payload).
              split; [reflexivity | ]. split; [reflexivity | ].
              split; [intros H; rewrite Hw in H; discriminate | ].
              split.
              { intros _. split; [reflexivity | ]. split; [discriminate | ].
                intros (resp' & d' & Hr & Hj & Ht').
                rewrite Hpost in Hr. injection Hr as <-.
                rewrite Hjson in Hj. injection Hj as <-.
                rewrite Ht in Ht'. discriminate. }
              split; [intros e' He'; rewrite Hpost in He'; discriminate | ].
              intros _ resp' e' Hr Hj. destruct (Hno _ _ Hr Hj).
Qed.

(** *** Sequencing *)

Lemma outcome_bind_inr {A B : Type} (m : M A) (k : A -> M B) (b : B) :
  outcome (bind m k) = inr b <->
  exists a, outcome m = inr a /\ outcome (k a) = inr b.
Proof.
  destruct m as [tr [e | a]]; cbn.
  - split; [discriminate | intros (a & H & _); discriminate].
  - destruct (k a) as [tr' r] eqn:Hk; cbn. split.
    + intros ->. exists a. rewrite Hk. auto.
    + intros (a' & [= <-] & H). rewrite Hk in H. exact H.
Qed.

Lemma outcome_bind_inl {A B : Type} (m : M A) (k : A -> M B) (e : raised) :
  outcome (bind m k) = inl e <->
  outcome m = inl e \/ exists a, outcome m = inr a /\ outcome (k a) = inl e.
Proof.
  destruct m as [tr [e' | a]]; cbn.
  - split; [intros [= ->]; now left | ].
    intros [[= ->] | (a & H & _)]; [reflexivity | discriminate H].
  - destruct (k a) as [tr' r] eqn:Hk; cbn. split.
    + intros ->. right. exists a. rewrite Hk. auto.
    + intros [H | (a' & [= <-] & H)]; [discriminate | ].
      rewrite Hk in H. exact H.
Qed.

Lemma bind_inr {A B : Type} (tr : list event) (a : A) (k : A -> M B) :
  bind (tr, inr a) k = ((tr ++ trace (k a))%list, outcome (k a)).
Proof.
  cbn. now destruct (k a).
Qed.

Lemma posts_app (tr tr' : list event) :
  posts (tr ++ tr') = (posts tr ++ posts tr')%list.
Proof.
  induction tr as [ | [line | r] tr IH]; cbn; [reflexivity | exact IH | ].
  now rewrite IH.
Qed.

(** *** Loading the summary *)

Lemma load_test_summary_eq (w : World) (summary_file : string) :
  load_test_summary w summary_file =
  match w_open_read w summary_file with
  | inl e => ([warning_line summary_file e], inr fallback_summary)
  | inr content =>
      match json_loads content with
      | inl e => ([warning_line summary_file e], inr fallback_summary)
      | inr summary => ([], inr summary)
      end
  end.
Proof.
  unfold load_test_summary, warning_line.
  destruct (w_open_read w summary_file) as [e | content]; [reflexivity | ].
  cbn. destruct (json_loads content); reflexivity.
Qed.

Lemma load_test_summary_fallback (w : World) (summary_file : string)
      (e : pyexc) :
  load_error w summary_file = Some e ->
  load_test_summary w summary_file
  = ([warning_line summary_file e], inr fallback_summary).
Proof.
  unfold load_error. rewrite load_test_summary_eq.
  destruct (w_open_read w summary_file) as [e' | content].
  - now intros [= ->].
  - destruct (json_loads content); [now intros [= ->] | discriminate].
Qed.

(** [load_test_summary] always returns a value. *)
Lemma load_test_summary_returns (w : World) (summary_file : string) :
  exists summary,
    outcome (load_test_summary w summary_file) = inr summary
    /\ posts (trace (load_test_summary w summary_file)) = [].
Proof.
  rewrite load_test_summary_eq.
  destruct (w_open_read w summary_file) as [e | content]; [cbn; eauto | ].
  destruct (json_loads content); cbn; eauto.
Qed.

(** *** One request per delivery *)

(** The request of the mode the notifier is in. *)
Lemma send_notification_returns (w : World) (self : SlackNotifier)
      (payload : pyval) :
  Py.str_truthy (webhook_url self) = true
  \/ Py.str_truthy (bot_token self) = true ->
  exists b : bool,
    outcome (send_notification w self payload) = inr (Some b)
    /\ posts (trace (send_notification w self payload))
       = [if Py.str_truthy (webhook_url self)
          then webhook_request self payload
          else bot_request self payload].
Proof.
  intros Hvalid.
  destruct (Py.str_truthy (webhook_url self)) eqn:Hw.
  - rewrite (send_notification_webhook w self payload Hw).
    destruct (w_post w _) as [e | resp]; [cbn; eauto | ].
    destruct (status_code resp =? 200)%Z; cbn; eauto.
  - destruct Hvalid as [Hv | Hb]; [discriminate | ].
    rewrite (send_notification_bot w self payload Hw Hb).
    destruct (w_post w _) as [e | resp]; [cbn; eauto | ].
    destruct (json_loads (text resp)) as [e | result]; [cbn; eauto | ].
    destruct (Py.get result "ok" PNone) as [e | ok]; [cbn; eauto | ].
    destruct (Py.truthy ok); cbn; eauto.
Qed.

(** [create_message_payload] leaves no event and raises exceptions
    only. *)
Lemma create_message_payload_quiet (w : World) (self : SlackNotifier)
      (summary : pyval) (ctx : list (string * string)) :
  trace (create_message_payload w self summary ctx) = []
  /\ forall code,
       outcome (create_message_payload w self summary ctx)
       <> inl (SystemExit code).
Proof.
  destruct summary; try (split; [reflexivity | discriminate]).
  cbn [create_message_payload]. split; [apply render_trace | ].
  intros code. rewrite render_eq.
  destruct (determine_status d); [discriminate | ].
  destruct (determine_coverage_color _); [discriminate | ].
  destruct (Py.gt_int _ 0); [discriminate | ].
  destruct (Py.lt_int _ 75); discriminate.
Qed.

Lemma create_message_payload_fallback (w : World) (self : SlackNotifier)
      (ctx : list (string * string)) :
  exists payload,
    create_message_payload w self fallback_summary ctx = ([], inr payload).
Proof.
  unfold fallback_summary. cbn [create_message_payload].
  apply render_numeric. reflexivity.
Qed.

(** C3, as the code has it. When the summary file cannot be read or
    parsed, [load_test_summary] prints a warning and returns the record
    with zeroed counters, sandbox "Unknown" and the status strings
    "❓ Unknown"; [send_test_results] then renders that record and makes
    its one delivery attempt with the rendered payload. *)
Theorem C3_fallback_then_delivery (w : World) (summary_file : string)
        (e : pyexc) :
  load_error w summary_file = Some e ->
  load_test_summary w summary_file
  = ([EPrint ("Warning: Could not load summary file " ++ summary_file
                ++ ": " ++ exc_msg e)],
     inr (PDict [ ("sandbox", PStr "Unknown");
                  ("total_tests", PInt 0);
                  ("passed_tests", PInt 0);
                  ("failed_tests", PInt 0);
                  ("avg_coverage", PInt 0);
                  ("status", PStr "❓ Unknown");
                  ("coverage_status", PStr "❓ Unknown") ]))
  /\ forall (wh bt : option string) (ch : string) (self : SlackNotifier)
            (ctx : list (string * string)),
       SlackNotifier_init wh bt ch = inr self ->
       exists (payload : pyval) (b : bool),
         create_message_payload w self fallback_summary ctx
         = ([], inr payload)
         /\ outcome (send_test_results w self summary_file ctx)
            = inr (Some b)
         /\ outcome (send_test_results w self summary_file ctx)
            = outcome (send_notification w self payload)
         /\ trace (send_test_results w self summary_file ctx)
            = warning_line summary_file e
                :: trace (send_notification w self payload)
         /\ posts (trace (send_test_results w self summary_file ctx))
            = [if Py.str_truthy (webhook_url self)
               then webhook_request self payload
               else bot_request self payload].
Proof.
  intros Hload. split.
  - exact (load_test_summary_fallback w summary_file e Hload).
  - intros wh bt ch self ctx Hinit.
    destruct (create_message_payload_fallback w self ctx) as [payload Hp].
    assert (Hvalid : Py.str_truthy (webhook_url self) = true
                     \/ Py.str_truthy (bot_token self) = true).
    { destruct (SlackNotifier_init_inr _ _ _ _ Hinit) as [_ [H | [_ H]]];
        auto. }
    destruct (send_notification_returns w self payload Hvalid)
      as (b & Hb & Hposts).
    exists payload, b. split; [exact Hp | ].
    unfold send_test_results.
    rewrite (load_test_summary_fallback w summary_file e Hload).
    rewrite bind_inr, Hp, bind_inr. cbn [trace outcome fst snd app].
    rewrite Hb. repeat split; try reflexivity.
    cbn [posts warning_line]. exact Hposts.
Qed.

(** *** Purity and the clock *)

Lemma assemble_blocks_footer (base : list pyval) (fb ab : pyval)
      (hf lc : bool) (actions footer : pyval) :
  assemble_blocks base fb ab hf lc [actions; footer]
  = (assemble_blocks base fb ab hf lc [actions] ++ [footer])%list.
Proof.
  unfold assemble_blocks. now rewrite <- !app_assoc.
Qed.

(** C6, as the code has it. [create_message_payload] leaves no event and
    changes nothing; its result is a function of its arguments, the
    notifier's configuration and the reading of the clock, which enters
    the footer block only: two runs at the same clock reading agree, and
    two runs at different readings agree on everything but the last
    block. *)
Theorem C6_payload_function_of_arguments_and_clock
        (w1 w2 : World) (self : SlackNotifier) (summary : pyval)
        (ctx : list (string * string)) :
  trace (create_message_payload w1 self summary ctx) = []
  /\ (w_now w1 = w_now w2 ->
      create_message_payload w1 self summary ctx
      = create_message_payload w2 self summary ctx)
  /\ (forall e,
        outcome (create_message_payload w1 self summary ctx) = inl e ->
        outcome (create_message_payload w2 self summary ctx) = inl e)
  /\ (forall p1,
        outcome (create_message_payload w1 self summary ctx) = inr p1 ->
        exists blocks fallback,
          p1 = choose_payload self
                 (blocks ++ [context_block ctx (w_now w1)])%list fallback
          /\ outcome (create_message_payload w2 self summary ctx)
             = inr (choose_payload self
                      (blocks ++ [context_block ctx (w_now w2)])%list
                      fallback)).
Proof.
  split; [apply create_message_payload_quiet | ].
  destruct summary as [ | b | n | f | s | l | d];
    try (split; [reflexivity | split; [trivial | discriminate]]).
  cbn [create_message_payload]. rewrite !render_eq.
  split; [now intros -> | ].
  destruct (determine_status d) as [e | st];
    [split; [trivial | discriminate] | ].
  destruct (determine_coverage_color _) as [e | cc];
    [split; [trivial | discriminate] | ].
  destruct (Py.gt_int _ 0) as [e | hf];
    [split; [trivial | discriminate] | ].
  destruct (Py.lt_int _ 75) as [e | lc];
    [split; [trivial | discriminate] | ].
  split; [discriminate | ].
  cbn [outcome snd]. intros p1 [= <-].
  rewrite !assemble_blocks_footer. eauto.
Qed.

(** *** The two payload shapes *)

Lemma choose_payload_webhook (self : SlackNotifier) (blocks : list pyval)
      (fallback : string) :
  Py.str_truthy (webhook_url self) = true ->
  choose_payload self blocks fallback = webhook_payload self blocks fallback.
Proof.
  unfold choose_payload. now intros ->.
Qed.

Lemma choose_payload_bot (self : SlackNotifier) (blocks : list pyval)
      (fallback : string) :
  Py.str_truthy (webhook_url self) = false ->
  choose_payload self blocks fallback = bot_payload self blocks fallback.
Proof.
  unfold choose_payload. now intros ->.
Qed.

(** C7. For one summary, context and clock reading, and one channel, the
    payload of a notifier in webhook mode carries a username and an icon,
    the payload of a notifier in bot-token mode carries neither, and the
    two have the same channel, the same blocks and the same fallback
    text; one mode renders a payload exactly when the other does. *)
Theorem C7_payload_shape_by_mode (w : World) (hook bot : SlackNotifier)
        (summary : pyval) (ctx : list (string * string)) :
  Py.str_truthy (webhook_url hook) = true ->
  Py.str_truthy (webhook_url bot) = false ->
  channel hook = channel bot ->
  (forall e,
     outcome (create_message_payload w hook summary ctx) = inl e <->
     outcome (create_message_payload w bot summary ctx) = inl e)
  /\ (forall d, summary = PDict d -> numeric_summary d = true ->
      exists p, create_message_payload w hook summary ctx = ([], inr p))
  /\ (forall ph,
        outcome (create_message_payload w hook summary ctx) = inr ph ->
        exists pb,
          outcome (create_message_payload w bot summary ctx) = inr pb
          /\ string_at ph [Key "username"] = Some "Salesforce CI Bot"
          /\ string_at ph [Key "icon_emoji"] = Some ":salesforce:"
          /\ has_key pb "username" = false
          /\ has_key pb "icon_emoji" = false
          /\ string_at ph [Key "channel"] = Some (channel hook)
          /\ string_at pb [Key "channel"] = Some (channel hook)
          /\ at_path ph [Key "blocks"] = at_path pb [Key "blocks"]
          /\ payload_blocks ph = payload_blocks pb
          /\ payload_text ph = payload_text pb
          /\ (exists t, payload_text ph = Some t)).
Proof.
  intros Hh Hb Hch.
  destruct summary as [ | b | n | f | s | l | d];
    try (split; [reflexivity | split; [discriminate | discriminate]]).
  cbn [create_message_payload]. rewrite !render_eq.
  split; [ | split].
  - intros e.
    destruct (determine_status d); [reflexivity | ].
    destruct (determine_coverage_color _); [reflexivity | ].
    destruct (Py.gt_int _ 0); [reflexivity | ].
    destruct (Py.lt_int _ 75); [reflexivity | ].
    split; discriminate.
  - intros d' [= <-] Hnum. rewrite <- render_eq.
    exact (render_numeric w hook d ctx Hnum).
  - destruct (determine_status d) as [e | st]; [discriminate | ].
    destruct (determine_coverage_color _) as [e | cc]; [discriminate | ].
    destruct (Py.gt_int _ 0) as [e | hf]; [discriminate | ].
    destruct (Py.lt_int _ 75) as [e | lc]; [discriminate | ].
    cbn [outcome snd]. intros ph [= <-]. eexists. split; [reflexivity | ].
    rewrite (choose_payload_webhook hook _ _ Hh).
    rewrite (choose_payload_bot bot _ _ Hb).
    unfold webhook_payload, bot_payload. rewrite <- Hch.
    repeat split; try reflexivity.
    eexists. reflexivity.
Qed.

(** C10. With both a webhook URL and a bot token configured the webhook
    wins: the payload has the webhook shape, with username and icon, and
    the one request [send_notification] issues is the webhook request, to
    the webhook URL and without the bearer token; the request of the
    bot-token branch, to the API endpoint, is not issued. *)
Theorem C10_webhook_takes_precedence (w : World) (self : SlackNotifier)
        (summary payload : pyval) (ctx : list (string * string)) :
  Py.str_truthy (webhook_url self) = true ->
  Py.str_truthy (bot_token self) = true ->
  (forall p,
     outcome (create_message_payload w self summary ctx) = inr p ->
     string_at p [Key "username"] = Some "Salesforce CI Bot"
     /\ string_at p [Key "icon_emoji"] = Some ":salesforce:"
     /\ exists blocks fallback, p = webhook_payload self blocks fallback)
  /\ (forall d, summary = PDict d -> numeric_summary d = true ->
      exists p, create_message_payload w self summary ctx = ([], inr p))
  /\ posts (trace (send_notification w self payload))
     = [mkRequest (Py.str_value (webhook_url self)) payload
                  [("Content-Type", "application/json")] 30]
  /\ ~ In (bot_request self payload)
          (posts (trace (send_notification w self payload)))
  /\ (forall r,
        In r (posts (trace (send_notification w self payload))) ->
        Some (req_url r) = webhook_url self
        /\ Py.str_get (req_headers r) "Authorization" "" = ""
        /\ (Py.str_value (webhook_url self) <> bot_api_url ->
            req_url r <> bot_api_url)).
Proof.
  intros Hw Hb. split; [ | split; [ | split; [ | split]]].
  - intros p Hp. destruct summary as [ | b | n | f | s | l | d];
      try discriminate.
    cbn [create_message_payload] in Hp.
    destruct (render_returns _ _ _ _ _ Hp)
      as (st & cc & hf & lc & _ & _ & _ & _ & ->).
    rewrite (choose_payload_webhook self _ _ Hw).
    split; [reflexivity | ]. split; [reflexivity | ]. eauto.
  - intros d -> Hnum. exact (render_numeric w self d ctx Hnum).
  - destruct (send_notification_returns w self payload (or_introl Hw))
      as (b & _ & Hposts).
    rewrite Hposts, Hw. reflexivity.
  - destruct (send_notification_returns w self payload (or_introl Hw))
      as (b & _ & Hposts).
    rewrite Hposts, Hw. intros [H | []].
    unfold webhook_request, bot_request in H. discriminate.
  - destruct (send_notification_returns w self payload (or_introl Hw))
      as (b & _ & Hposts).
    rewrite Hposts, Hw. intros r [<- | []].
    unfold webhook_request. cbn.
    split; [ | split; [reflexivity | trivial]].
    destruct (webhook_url self); [reflexivity | discriminate].
Qed.

(** *** The process *)

Lemma send_notification_no_raise (w : World) (self : SlackNotifier)
      (payload : pyval) :
  exists r, outcome (send_notification w self payload) = inr r.
Proof.
  destruct (Py.str_truthy (webhook_url self)) eqn:Hw.
  - destruct (send_notification_returns w self payload (or_introl Hw))
      as (b & Hb & _). eauto.
  - destruct (Py.str_truthy (bot_token self)) eqn:Hb.
    + destruct (send_notification_returns w self payload (or_intror Hb))
        as (b & Hb' & _). eauto.
    + unfold send_notification. rewrite Hw, Hb. cbn. eauto.
Qed.

(** [send_test_results] ends in a value or an exception, never in
    [SystemExit]. *)
Lemma send_test_results_no_exit (w : World) (self : SlackNotifier)
      (summary_file : string) (ctx : list (string * string)) (code : Z) :
  outcome (send_test_results w self summary_file ctx)
  <> inl (SystemExit code).
Proof.
  unfold send_test_results. intros H.
  apply outcome_bind_inl in H as [H | (summary & _ & H)].
  - destruct (load_test_summary_returns w summary_file) as (s & Hs & _).
    rewrite Hs in H. discriminate.
  - apply outcome_bind_inl in H as [H | (payload & _ & H)].
    + now apply (create_message_payload_quiet w self summary ctx) in H.
    + destruct (send_notification_no_raise w self payload) as [r Hr].
      rewrite Hr in H. discriminate.
Qed.

(** The three ways through [main]. *)
Lemma main_eq (w : World) :
  main w =
  if Nat.ltb (List.length (w_argv w)) 2 then
    ([EPrint usage_line], inl (SystemExit 1))
  else if (negb (Py.str_truthy (w_getenv w "SLACK_WEBHOOK_URL"))
           && negb (Py.str_truthy (w_getenv w "SLACK_BOT_TOKEN")))%bool then
    ([EPrint missing_credentials_line], inl (SystemExit 1))
  else
    match send_test_results w (main_notifier w) (nth 1 (w_argv w) "")
                            (main_github_context w) with
    | (tr, inr success) =>
        (tr, inl (SystemExit (match success with
                              | Some true => 0
                              | _ => 1
                              end)))
    | (tr, inl (Exc e)) => ((tr ++ [error_line e])%list, inl (SystemExit 1))
    | (tr, inl (SystemExit code)) => (tr, inl (SystemExit code))
    end.
Proof.
  unfold main, main_notifier, error_line.
  destruct (Nat.ltb (List.length (w_argv w)) 2); [reflexivity | ].
  cbn [bind ret app]. unfold SlackNotifier_init.
  destruct (negb (Py.str_truthy (w_getenv w "SLACK_WEBHOOK_URL"))
            && negb (Py.str_truthy (w_getenv w "SLACK_BOT_TOKEN")))%bool;
    [reflexivity | ].
  cbn [bind ret app].
  destruct (send_test_results w _ _ _) as [tr [[e | code] | success]];
    cbn; rewrite ?app_nil_r; reflexivity.
Qed.

(** C8. The exit code is 0 or 1, and it is 0 exactly when the run got as
    far as [send_notification] and that returned true. It is 1 when the
    delivery fails, when rendering raises (the error is printed), and when
    neither credential is set, in which case no request is issued. *)
Theorem C8_exit_codes (w : World) :
  (exit_code (main w) = 0%Z \/ exit_code (main w) = 1%Z)
  /\ (exit_code (main w) = 0%Z <->
      (2 <= List.length (w_argv w))%nat
      /\ (Py.str_truthy (w_getenv w "SLACK_WEBHOOK_URL") = true
          \/ Py.str_truthy (w_getenv w "SLACK_BOT_TOKEN") = true)
      /\ exists summary payload,
           outcome (load_test_summary w (nth 1 (w_argv w) "")) = inr summary
           /\ outcome (create_message_payload w (main_notifier w) summary
                         (main_github_context w)) = inr payload
           /\ outcome (send_notification w (main_notifier w) payload)
              = inr (Some true))
  /\ (outcome (send_test_results w (main_notifier w) (nth 1 (w_argv w) "")
                 (main_github_context w)) = inr (Some false) ->
      exit_code (main w) = 1%Z)
  /\ (forall e,
        (2 <= List.length (w_argv w))%nat ->
        Py.str_truthy (w_getenv w "SLACK_WEBHOOK_URL") = true
        \/ Py.str_truthy (w_getenv w "SLACK_BOT_TOKEN") = true ->
        outcome (send_test_results w (main_notifier w) (nth 1 (w_argv w) "")
                   (main_github_context w)) = inl (Exc e) ->
        exit_code (main w) = 1%Z /\ In (error_line e) (trace (main w)))
  /\ (Py.str_truthy (w_getenv w "SLACK_WEBHOOK_URL") = false ->
      Py.str_truthy (w_getenv w "SLACK_BOT_TOKEN") = false ->
      exit_code (main w) = 1%Z
      /\ posts (trace (main w)) = []
      /\ ((2 <= List.length (w_argv w))%nat ->
          trace (main w) = [EPrint missing_credentials_line])).
Proof.
  rewrite main_eq.
  assert (Hdeliv :
            outcome (send_test_results w (main_notifier w)
                       (nth 1 (w_argv w) "") (main_github_context w))
            = inr (Some true) <->
            exists summary payload,
              outcome (load_test_summary w (nth 1 (w_argv w) ""))
              = inr summary
              /\ outcome (create_message_payload w (main_notifier w) summary
                            (main_github_context w)) = inr payload
              /\ outcome (send_notification w (main_notifier w) payload)
                 = inr (Some true)).
  { unfold send_test_results. rewrite outcome_bind_inr. split.
    - intros (summary & Hs & H). apply outcome_bind_inr in H.
      destruct H as (payload & Hp & H). eauto.
    - intros (summary & payload & Hs & Hp & H). exists summary.
      split; [exact Hs | ]. apply outcome_bind_inr. eauto. }
  pose proof (send_test_results_no_exit w (main_notifier w)
                (nth 1 (w_argv w) "") (main_github_context w)) as Hnoexit.
  destruct (Nat.ltb (List.length (w_argv w)) 2) eqn:Hlen.
  - apply Nat.ltb_lt in Hlen. cbn.
    split; [now right | ]. split.
    { split; [discriminate | ]. intros [H _]. lia. }
    split; [reflexivity | ]. split; [intros e H; lia | ].
    intros _ _. split; [reflexivity | ]. split; [reflexivity | ]. lia.
  - apply Nat.ltb_ge in Hlen.
    destruct (Py.str_truthy (w_getenv w "SLACK_WEBHOOK_URL")) eqn:Hw;
      destruct (Py.str_truthy (w_getenv w "SLACK_BOT_TOKEN")) eqn:Hb;
      cbn [negb andb].
    4: { cbn. split; [now right | ]. split.
         { split; [discriminate | ]. intros (_ & [H | H] & _); discriminate. }
         split; [reflexivity | ].
         split; [intros e _ [H | H]; discriminate | ].
         intros _ _. auto. }
    all: rewrite <- Hdeliv.
    all: destruct (send_test_results w (main_notifier w) _ _)
           as [tr [[e | code] | [[ | ] | ]]]; cbn in *.
    all: try (exfalso; now apply (Hnoexit code)).
    all: repeat match goal with |- _ /\ _ => split end.
    all: try (now left); try (now right).
    all: try (split; [intros H; try discriminate H; auto
                     | intros (_ & _ & H); try discriminate H; auto]; fail).
    all: try (intros H; try discriminate H; reflexivity).
    all: try (intros H1 H2; discriminate).
    all: intros e' _ _ H; try discriminate H; injection H as <-.
    all: split; [reflexivity | apply in_or_app; right; now left].
Qed.

(** *** The UAT scenario *)

(** C9. For the summary sandbox "UAT", 50 tests, 47 passed, 3 failed,
    coverage 62, the payload shows FAILED, the warning marker for
    coverage, both the failure callout and the coverage alert, and a
    fallback text that contains "47/50 tests passed" and "62% coverage". *)
Theorem C9_uat_scenario (w : World) (self : SlackNotifier)
        (ctx : list (string * string)) :
  exists p,
    create_message_payload w self
      (PDict [ ("sandbox", PStr "UAT");
               ("total_tests", PInt 50);
               ("passed_tests", PInt 47);
               ("failed_tests", PInt 3);
               ("avg_coverage", PInt 62) ]) ctx
    = ([], inr p)
    /\ marks_status p (mkStatus "#ff0000" "❌" "FAILED")
    /\ status_field p = Some ("*Status:*" ++ nl ++ "❌ FAILED")
    /\ marks_coverage p "62" "⚠️"
    /\ existsb is_failure_callout (payload_blocks p) = true
    /\ existsb is_coverage_alert (payload_blocks p) = true
    /\ In (section_text
             "⚠️ *3 tests failed* - Immediate attention required")
          (payload_blocks p)
    /\ In (section_text
             "📊 *Coverage Alert:* 62% is below the recommended 75% threshold")
          (payload_blocks p)
    /\ payload_text p
       = Some "❌ Salesforce tests failed for UAT - 47/50 tests passed, 62% coverage"
    /\ (exists before after,
          payload_text p
          = Some (before ++ "47/50 tests passed" ++ after))
    /\ (exists before after,
          payload_text p = Some (before ++ "62% coverage" ++ after)).
Proof.
  cbn [create_message_payload]. rewrite render_eq.
  eexists. split; [reflexivity | ].
  split; [apply marks_status_rendered | ].
  split; [apply status_field_choose | ].
  split; [unfold marks_coverage; now rewrite coverage_field_choose | ].
  rewrite payload_blocks_choose, payload_text_choose.
  split; [reflexivity | ]. split; [reflexivity | ].
  split; [cbn; auto | ]. split; [cbn; auto 6 | ].
  split; [reflexivity | ].
  split.
  - exists "❌ Salesforce tests failed for UAT - ", ", 62% coverage".
    reflexivity.
  - exists "❌ Salesforce tests failed for UAT - 47/50 tests passed, ", "".
    reflexivity.
Qed.

(** *** Further properties: construction and loading *)

Lemma str_truthy_false (o : option string) :
  Py.str_truthy o = false <-> missing o.
Proof.
  unfold missing. destruct o as [s | ]; cbn.
  - rewrite negb_false_iff, String.eqb_eq. split.
    + intros ->. now right.
    + intros [H | [= ->]]; [discriminate | reflexivity].
  - split; auto.
Qed.

Lemma str_truthy_true (o : option string) :
  Py.str_truthy o = true <-> exists s, o = Some s /\ s <> "".
Proof.
  destruct o as [s | ]; cbn.
  - rewrite negb_true_iff, String.eqb_neq. split.
    + intros H. eauto.
    + now intros (s' & [= <-] & H).
  - split; [discriminate | intros (s & H & _); discriminate].
Qed.

(** X1. [__init__] raises [ValueError] exactly when both credentials are
    missing, the empty string counting as missing; otherwise it returns
    the object holding its three arguments unchanged. *)
Theorem X1_init_rejects_missing_credentials (wh bt : option string)
        (ch : string) :
  (SlackNotifier_init wh bt ch
   = inl (Exc (mkExc "ValueError"
                 "Either webhook_url or bot_token must be provided"))
   <-> missing wh /\ missing bt)
  /\ (forall self,
        SlackNotifier_init wh bt ch = inr self <->
        ((exists s, wh = Some s /\ s <> "")
         \/ (exists s, bt = Some s /\ s <> ""))
        /\ self = mkNotifier wh bt ch)
  /\ (forall r, SlackNotifier_init wh bt ch = inl r ->
                r = Exc (mkExc "ValueError"
                           "Either webhook_url or bot_token must be provided")).
Proof.
  unfold SlackNotifier_init.
  pose proof (str_truthy_false wh) as Hwf.
  pose proof (str_truthy_false bt) as Hbf.
  pose proof (str_truthy_true wh) as Hwt.
  pose proof (str_truthy_true bt) as Hbt.
  destruct (Py.str_truthy wh), (Py.str_truthy bt); cbn.
  1-3: split; [split; [discriminate | ] | split; [ | discriminate]].
  1, 3, 5: intros [H1 H2];
    try (apply Hwf in H1; discriminate H1);
    apply Hbf in H2; discriminate H2.
  1-3: intros self; split; [intros [= <-]; split; [ | reflexivity]
                          | now intros [_ ->]].
  - left. now apply Hwt.
  - left. now apply Hwt.
  - right. now apply Hbt.
  - split; [split; [intros _ | reflexivity] | split].
    + split; [now apply Hwf | now apply Hbf].
    + intros self. split; [discriminate | ].
      intros [[H | H] _]; [apply Hwt in H | apply Hbt in H]; discriminate.
    + now intros r [= <-].
Qed.

(** X2. [load_test_summary] never raises and issues no request. A file
    that reads and parses is returned as parsed, whatever its shape, and
    nothing is printed; otherwise exactly one line is printed. *)
Theorem X2_load_never_raises (w : World) (summary_file : string) :
  exists v,
    outcome (load_test_summary w summary_file) = inr v
    /\ posts (trace (load_test_summary w summary_file)) = []
    /\ (forall content parsed,
          w_open_read w summary_file = inr content ->
          json_loads content = inr parsed ->
          load_test_summary w summary_file = ([], inr parsed))
    /\ (load_error w summary_file = None ->
        trace (load_test_summary w summary_file) = [])
    /\ (forall e,
          load_error w summary_file = Some e ->
          trace (load_test_summary w summary_file)
          = [warning_line summary_file e]).
Proof.
  rewrite load_test_summary_eq. unfold load_error.
  destruct (w_open_read w summary_file) as [e | content].
  - eexists. split; [reflexivity | ]. split; [reflexivity | ].
    split; [discriminate | ]. split; [discriminate | ].
    now intros e' [= <-].
  - destruct (json_loads content) as [e | parsed] eqn:Hj.
    + eexists. split; [reflexivity | ]. split; [reflexivity | ].
      split.
      { intros c p' [= <-] Hp. rewrite Hj in Hp. discriminate. }
      split; [discriminate | ]. now intros e' [= <-].
    + eexists. split; [reflexivity | ]. split; [reflexivity | ].
      split.
      { intros c p' [= <-] Hp. rewrite Hj in Hp. now injection Hp as <-. }
      split; [reflexivity | discriminate].
Qed.

(** *** Further properties: rendering *)

(** X3. [create_message_payload] reads five keys of the summary and
    nothing else: two dicts on which the reads of [sandbox],
    [total_tests], [passed_tests], [failed_tests] and [avg_coverage] give
    the same values render the same payload, or raise the same exception.
    The [status] and [coverage_status] fields are never read. *)
Theorem X3_render_reads_five_keys (w : World) (self : SlackNotifier)
        (d1 d2 : list (string * pyval)) (ctx : list (string * string)) :
  reads_agree d1 d2 ->
  create_message_payload w self (PDict d1) ctx
  = create_message_payload w self (PDict d2) ctx.
Proof.
  intros (Hs & Ht & Hp & Hf & Hc). cbn [create_message_payload].
  rewrite !render_eq.
  unfold determine_status, base_blocks, failed_tests_block, fallback_text.
  rewrite Hs, Ht, Hp, Hf, Hc. reflexivity.
Qed.

(** X4. A rendered payload has between four and six blocks in a fixed
    order: the header, the field grid, the failure callout if there are
    failures, the coverage alert if coverage is low, the link buttons,
    and the footer last. *)
Theorem X4_block_order (w : World) (self : SlackNotifier)
        (summary : list (string * pyval)) (ctx : list (string * string))
        (p : pyval) :
  outcome (create_message_payload w self (PDict summary) ctx) = inr p ->
  exists has_failures low_coverage : bool,
    Py.gt_int (Py.dict_get summary "failed_tests" (PInt 0)) 0
    = inr has_failures
    /\ Py.lt_int (Py.dict_get summary "avg_coverage" (PInt 0)) 75
       = inr low_coverage
    /\ List.length (payload_blocks p)
       = (4 + Nat.b2n has_failures + Nat.b2n low_coverage)%nat
    /\ string_at p [Key "blocks"; Idx 0; Key "type"] = Some "header"
    /\ string_at p [Key "blocks"; Idx 1; Key "type"] = Some "section"
    /\ (exists fields,
          at_path p [Key "blocks"; Idx 1; Key "fields"]
          = Some (PList fields) /\ List.length fields = 4%nat)
    /\ (has_failures = true ->
        nth_error (payload_blocks p) 2 = Some (failed_tests_block summary))
    /\ (low_coverage = true ->
        nth_error (payload_blocks p) (2 + Nat.b2n has_failures)
        = Some (coverage_alert_block
                  (Py.dict_get summary "avg_coverage" (PInt 0))))
    /\ nth_error (payload_blocks p)
                 (2 + Nat.b2n has_failures + Nat.b2n low_coverage)
       = Some (actions_block ctx)
    /\ nth_error (payload_blocks p)
                 (3 + Nat.b2n has_failures + Nat.b2n low_coverage)
       = Some (context_block ctx (w_now w)).
Proof.
  intros Hp. cbn [create_message_payload] in Hp.
  destruct (render_returns _ _ _ _ _ Hp)
    as (st & cc & hf & lc & _ & _ & Hhf & Hlc & ->).
  exists hf, lc. split; [exact Hhf | ]. split; [exact Hlc | ].
  rewrite payload_blocks_choose. unfold choose_payload.
  destruct (Py.str_truthy (webhook_url self)), hf, lc;
    repeat split; try reflexivity; try discriminate;
    eexists; split; reflexivity.
Qed.

Lemma eq_int_not_gt (v : pyval) (z : Z) :
  Py.eq_int v z = true -> Py.gt_int v z = inr false.
Proof.
  unfold Py.eq_int, Py.gt_int.
  destruct (Py.num_cmp_int v z) as [[[ | | ] | ] | ];
    try discriminate; reflexivity.
Qed.

(** The status a payload shows is the one the locals hold. *)
Lemma marks_status_success_inv (self : SlackNotifier)
      (d : list (string * pyval)) (st : status_locals) (cov : pyval)
      (cc : string) (fb ab : pyval) (hf lc : bool) (rest : list pyval)
      (fallback : string) :
  st = status_success \/ st = status_failed ->
  marks_status
    (choose_payload self
       (assemble_blocks (base_blocks d st cov cc) fb ab hf lc rest) fallback)
    status_success ->
  st = status_success.
Proof.
  intros [-> | ->]; [reflexivity | ].
  intros [H _]. rewrite status_field_choose in H. discriminate H.
Qed.

(** X5. Status and callout agree: a payload that shows SUCCESS holds no
    failure callout, and a payload that holds the callout shows
    FAILED. *)
Theorem X5_success_has_no_callout (w : World) (self : SlackNotifier)
        (summary : list (string * pyval)) (ctx : list (string * string))
        (p : pyval) :
  outcome (create_message_payload w self (PDict summary) ctx) = inr p ->
  (marks_status p status_success ->
   existsb is_failure_callout (payload_blocks p) = false)
  /\ (existsb is_failure_callout (payload_blocks p) = true ->
      marks_status p status_failed).
Proof.
  intros Hp. cbn [create_message_payload] in Hp.
  destruct (render_returns _ _ _ _ _ Hp)
    as (st & cc & hf & lc & Hst & _ & Hhf & _ & ->).
  rewrite payload_blocks_choose, assembled_failure_callout.
  destruct (determine_status_cases _ _ Hst) as [(-> & H0 & _) | [-> _]].
  - rewrite (eq_int_not_gt _ _ H0) in Hhf. injection Hhf as <-.
    split; [reflexivity | discriminate].
  - split; [ | intros _; apply marks_status_rendered].
    intros Hm. apply marks_status_success_inv in Hm; [ | now right].
    discriminate Hm.
Qed.





(** *** Further properties: delivery *)

(** X7. A notifier with a credential issues exactly one request and then
    prints exactly one line: the request carries the payload it was
    given, unchanged, as JSON with a timeout of 30; the line opens with
    the check mark exactly when the result is true and with the cross
    otherwise. The bearer token is sent in bot-token mode only. *)
Theorem X7_one_request_one_line (w : World) (self : SlackNotifier)
        (payload : pyval) :
  Py.str_truthy (webhook_url self) = true
  \/ Py.str_truthy (bot_token self) = true ->
  exists (b : bool) (line : string),
    send_notification w self payload
    = ([EPost (delivery_request self payload); EPrint line],
       inr (Some b))
    /\ starts_with (if b then "✅" else "❌") line = true
    /\ req_json (delivery_request self payload) = payload
    /\ req_timeout (delivery_request self payload) = 30%Z
    /\ Py.str_get (req_headers (delivery_request self payload))
                  "Content-Type" "" = "application/json"
    /\ (Py.str_truthy (webhook_url self) = true ->
        Some (req_url (delivery_request self payload)) = webhook_url self
        /\ map fst (req_headers (delivery_request self payload))
           = ["Content-Type"])
    /\ (Py.str_truthy (webhook_url self) = false ->
        req_url (delivery_request self payload) = bot_api_url
        /\ Py.str_get (req_headers (delivery_request self payload))
                      "Authorization" ""
           = "Bearer " ++ Py.str_value (bot_token self)).
Proof.
  intros Hvalid. unfold delivery_request.
  destruct (Py.str_truthy (webhook_url self)) eqn:Hw.
  - rewrite (send_notification_webhook w self payload Hw).
    assert (Hurl : Some (req_url (webhook_request self payload))
                   = webhook_url self).
    { unfold webhook_request. cbn.
      destruct (webhook_url self); [reflexivity | discriminate]. }
    destruct (w_post w _) as [e | resp];
      [ | destruct (status_code resp =? 200)%Z ];
      eexists; eexists; (split; [reflexivity | ]);
      repeat split; try reflexivity; try discriminate; exact Hurl.
  - destruct Hvalid as [Hv | Hb]; [discriminate | ].
    rewrite (send_notification_bot w self payload Hw Hb).
    destruct (w_post w _) as [e | resp];
      [ | destruct (json_loads (text resp)) as [e | result];
          [ | destruct (Py.get result "ok" PNone) as [e | ok];
              [ | destruct (Py.truthy ok) ] ] ];
      eexists; eexists; (split; [reflexivity | ]);
      repeat split; try reflexivity; discriminate.
Qed.

(** X8. A notifier whose two credentials are both missing (its
    attributes can be reassigned after construction) makes
    [send_notification] fall off the end: the result is [None], not a
    boolean, nothing is requested and nothing is printed. *)
Theorem X8_no_credential_returns_none (w : World) (self : SlackNotifier)
        (payload : pyval) :
  missing (webhook_url self) -> missing (bot_token self) ->
  send_notification w self payload = ([], inr None).
Proof.
  intros Hw Hb. apply str_truthy_false in Hw, Hb.
  unfold send_notification. rewrite Hw, Hb. reflexivity.
Qed.

Lemma cmp_int_raises_type_error (v : pyval) (z : Z) (e : pyexc) :
  Py.gt_int v z = inl e \/ Py.ge_int v z = inl e \/ Py.lt_int v z = inl e ->
  exc_class e = "TypeError".
Proof.
  unfold Py.gt_int, Py.ge_int, Py.lt_int.
  destruct (Py.num_cmp_int v z) as [[[ | | ] | ] | ];
    intros [H | [H | H]]; try discriminate H;
    injection H as <-; reflexivity.
Qed.

Lemma determine_status_raises (d : list (string * pyval)) (e : pyexc) :
  determine_status d = inl e -> exc_class e = "TypeError".
Proof.
  unfold determine_status. destruct (Py.eq_int _ 0); [ | discriminate].
  destruct (Py.gt_int _ 0) as [e' | [ | ]] eqn:H; try discriminate.
  intros [= <-]. eapply cmp_int_raises_type_error; eauto.
Qed.

Lemma determine_coverage_color_raises (c : pyval) (e : pyexc) :
  determine_coverage_color c = inl e -> exc_class e = "TypeError".
Proof.
  unfold determine_coverage_color.
  destruct (Py.ge_int c 75) as [e' | [ | ]] eqn:H75; try discriminate.
  - intros [= <-]. eapply cmp_int_raises_type_error; eauto.
  - destruct (Py.ge_int c 50) as [e' | [ | ]] eqn:H50; try discriminate.
    intros [= <-]. eapply cmp_int_raises_type_error; eauto.
Qed.

(** What rendering can raise. *)
Lemma create_message_payload_raises (w : World) (self : SlackNotifier)
      (summary : pyval) (ctx : list (string * string)) (r : raised) :
  outcome (create_message_payload w self summary ctx) = inl r ->
  exists e,
    r = Exc e
    /\ ((exists d, summary = PDict d) /\ exc_class e = "TypeError"
        \/ (forall d, summary <> PDict d)
           /\ e = mkExc "AttributeError"
                    ("'" ++ Py.type_name summary
                         ++ "' object has no attribute 'get'")).
Proof.
  destruct summary as [ | b | n | f | s | l | d];
    try (cbn; intros [= <-]; eexists; split; [reflexivity | ];
         right; split; [discriminate | reflexivity]).
  cbn [create_message_payload]. rewrite render_eq.
  destruct (determine_status d) as [e | st] eqn:Hst.
  { cbn. intros [= <-]. exists e. split; [reflexivity | left].
    split; [eauto | ]. now apply determine_status_raises with d. }
  destruct (determine_coverage_color _) as [e | cc] eqn:Hcc.
  { cbn. intros [= <-]. exists e. split; [reflexivity | left].
    split; [eauto | ]. eapply determine_coverage_color_raises; eauto. }
  destruct (Py.gt_int _ 0) as [e | hf] eqn:Hhf.
  { cbn. intros [= <-]. exists e. split; [reflexivity | left].
    split; [eauto | ]. eapply cmp_int_raises_type_error; eauto. }
  destruct (Py.lt_int _ 75) as [e | lc] eqn:Hlc.
  { cbn. intros [= <-]. exists e. split; [reflexivity | left].
    split; [eauto | ]. eapply cmp_int_raises_type_error; eauto. }
  discriminate.
Qed.

(** The three steps of [send_test_results], step by step. *)
Lemma send_test_results_eq (w : World) (self : SlackNotifier)
      (summary_file : string) (ctx : list (string * string)) :
  send_test_results w self summary_file ctx =
  match outcome (load_test_summary w summary_file) with
  | inl r => (trace (load_test_summary w summary_file), inl r)
  | inr summary =>
      match outcome (create_message_payload w self summary ctx) with
      | inl r => (trace (load_test_summary w summary_file), inl r)
      | inr payload =>
          ((trace (load_test_summary w summary_file)
              ++ trace (send_notification w self payload))%list,
           outcome (send_notification w self payload))
      end
  end.
Proof.
  unfold send_test_results.
  destruct (load_test_summary w summary_file) as [tr0 [r | summary]];
    [reflexivity | ].
  rewrite bind_inr. cbn [trace outcome fst snd].
  destruct (create_message_payload_quiet w self summary ctx) as [Ht _].
  destruct (create_message_payload w self summary ctx)
    as [tr1 [r | payload]]; cbn in Ht; subst tr1.
  - cbn. now rewrite app_nil_r.
  - rewrite bind_inr. reflexivity.
Qed.

(** X9. [send_test_results] recovers from a summary that does not load
    but not from one that does not render: it raises exactly when
    [create_message_payload] raises on the loaded summary, the exception
    is a [TypeError] (a compared field is not a number) or an
    [AttributeError] (the summary is not an object), and then no request
    has been issued. *)
Theorem X9_render_errors_propagate (w : World) (self : SlackNotifier)
        (summary_file : string) (ctx : list (string * string)) :
  (forall r,
     outcome (send_test_results w self summary_file ctx) = inl r <->
     exists summary,
       outcome (load_test_summary w summary_file) = inr summary
       /\ outcome (create_message_payload w self summary ctx) = inl r)
  /\ (forall r,
        outcome (send_test_results w self summary_file ctx) = inl r ->
        posts (trace (send_test_results w self summary_file ctx)) = []
        /\ exists e,
             r = Exc e
             /\ (exc_class e = "TypeError"
                 \/ exc_class e = "AttributeError")).
Proof.
  rewrite send_test_results_eq.
  destruct (load_test_summary_returns w summary_file)
    as (summary & Hs & Hposts).
  rewrite Hs.
  destruct (outcome (create_message_payload w self summary ctx))
    as [r' | payload] eqn:Hp.
  - split.
    + intros r. cbn. split.
      * intros [= <-]. eauto.
      * intros (s' & [= <-] & H). rewrite Hp in H. now injection H as <-.
    + intros r. cbn. intros [= <-]. split; [exact Hposts | ].
      destruct (create_message_payload_raises _ _ _ _ _ Hp)
        as (e & -> & [[_ H] | [_ ->]]); eauto.
  - destruct (send_notification_no_raise w self payload) as [res Hres].
    cbn [outcome snd]. fold (outcome (send_notification w self payload)).
    rewrite Hres. split.
    + intros r. split; [discriminate | ].
      intros (s' & [= <-] & H). rewrite Hp in H. discriminate H.
    + intros r H. discriminate H.
Qed.

(** *** Further properties: the process *)

Lemma choose_payload_channel (self : SlackNotifier) (blocks : list pyval)
      (fallback : string) :
  string_at (choose_payload self blocks fallback) [Key "channel"]
  = Some (channel self).
Proof.
  unfold choose_payload. now destruct (Py.str_truthy (webhook_url self)).
Qed.

Lemma rendered_channel (w : World) (self : SlackNotifier)
      (summary : pyval) (ctx : list (string * string)) (p : pyval) :
  outcome (create_message_payload w self summary ctx) = inr p ->
  string_at p [Key "channel"] = Some (channel self).
Proof.
  destruct summary as [ | b | n | f | s | l | d]; try discriminate.
  cbn [create_message_payload]. intros Hp.
  destruct (render_returns _ _ _ _ _ Hp)
    as (st & cc & hf & lc & _ & _ & _ & _ & ->).
  apply choose_payload_channel.
Qed.

(** The requests of a run of [main]. *)
Lemma main_posts (w : World) :
  posts (trace (main w)) =
  if (Nat.ltb (List.length (w_argv w)) 2
      || negb (Py.str_truthy (w_getenv w "SLACK_WEBHOOK_URL"))
         && negb (Py.str_truthy (w_getenv w "SLACK_BOT_TOKEN")))%bool
  then []
  else
    match outcome (load_test_summary w (nth 1 (w_argv w) "")) with
    | inl _ => []
    | inr summary =>
        match outcome (create_message_payload w (main_notifier w) summary
                         (main_github_context w)) with
        | inl _ => []
        | inr payload => [delivery_request (main_notifier w) payload]
        end
    end.
Proof.
  rewrite main_eq.
  destruct (Nat.ltb (List.length (w_argv w)) 2); [reflexivity | ].
  cbn [orb].
  destruct (negb (Py.str_truthy (w_getenv w "SLACK_WEBHOOK_URL"))
            && negb (Py.str_truthy (w_getenv w "SLACK_BOT_TOKEN")))%bool
    eqn:Hcred; [reflexivity | ].
  assert (Hvalid : Py.str_truthy (webhook_url (main_notifier w)) = true
                   \/ Py.str_truthy (bot_token (main_notifier w)) = true).
  { cbn. destruct (Py.str_truthy (w_getenv w "SLACK_WEBHOOK_URL"));
      [now left | ].
    destruct (Py.str_truthy (w_getenv w "SLACK_BOT_TOKEN"));
      [now right | discriminate]. }
  rewrite send_test_results_eq.
  destruct (load_test_summary_returns w (nth 1 (w_argv w) ""))
    as (summary & Hs & Hposts).
  rewrite Hs.
  destruct (outcome (create_message_payload w (main_notifier w) summary
                       (main_github_context w))) as [r | payload].
  - destruct r as [e | code]; cbn [trace fst]; rewrite ?posts_app, Hposts;
      reflexivity.
  - destruct (send_notification_returns w (main_notifier w) payload Hvalid)
      as (b & Hb & Hp).
    cbn [outcome snd].
    fold (outcome (send_notification w (main_notifier w) payload)).
    rewrite Hb. cbn [trace fst]. rewrite posts_app, Hposts, Hp. reflexivity.
Qed.

(** X10. A run of [main] issues at most one request. It issues one
    exactly when a summary file is named, a credential is set and the
    loaded summary renders; the request then carries the rendered payload,
    for the channel of [SLACK_CHANNEL] or "#salesforce-ci", to the
    webhook URL if that is set and to the API endpoint otherwise. *)
Theorem X10_main_one_request (w : World) :
  (List.length (posts (trace (main w))) <= 1)%nat
  /\ (forall req,
        In req (posts (trace (main w))) ->
        posts (trace (main w)) = [req]
        /\ (2 <= List.length (w_argv w))%nat
        /\ (Py.str_truthy (w_getenv w "SLACK_WEBHOOK_URL") = true
            \/ Py.str_truthy (w_getenv w "SLACK_BOT_TOKEN") = true)
        /\ (exists summary,
              outcome (load_test_summary w (nth 1 (w_argv w) ""))
              = inr summary
              /\ outcome (create_message_payload w (main_notifier w)
                            summary (main_github_context w))
                 = inr (req_json req))
        /\ string_at (req_json req) [Key "channel"]
           = Some (getenv_default w "SLACK_CHANNEL" "#salesforce-ci")
        /\ req_timeout req = 30%Z
        /\ (if Py.str_truthy (w_getenv w "SLACK_WEBHOOK_URL")
            then Some (req_url req) = w_getenv w "SLACK_WEBHOOK_URL"
            else req_url req = bot_api_url))
  /\ (forall summary payload,
        (2 <= List.length (w_argv w))%nat ->
        Py.str_truthy (w_getenv w "SLACK_WEBHOOK_URL") = true
        \/ Py.str_truthy (w_getenv w "SLACK_BOT_TOKEN") = true ->
        outcome (load_test_summary w (nth 1 (w_argv w) "")) = inr summary ->
        outcome (create_message_payload w (main_notifier w) summary
                   (main_github_context w)) = inr payload ->
        posts (trace (main w))
        = [delivery_request (main_notifier w) payload]).
Proof.
  rewrite main_posts.
  destruct (Nat.ltb (List.length (w_argv w)) 2) eqn:Hlen.
  { apply Nat.ltb_lt in Hlen. cbn.
    split; [lia | ]. split; [intros req [] | ]. intros; lia. }
  apply Nat.ltb_ge in Hlen. cbn [orb].
  destruct (Py.str_truthy (w_getenv w "SLACK_WEBHOOK_URL")) eqn:Hw;
    destruct (Py.str_truthy (w_getenv w "SLACK_BOT_TOKEN")) eqn:Hb;
    cbn [negb andb].
  4: { cbn. split; [lia | ]. split; [intros req [] | ].
       intros s p' _ [H | H]; discriminate. }
  all: destruct (outcome (load_test_summary w (nth 1 (w_argv w) "")))
         as [r | summary] eqn:Hs.
  all: try (cbn; split; [lia | ]; split; [intros req [] | ];
            intros s p' _ _ H; discriminate H).
  all: destruct (outcome (create_message_payload w (main_notifier w)
                            summary (main_github_context w)))
         as [r | payload] eqn:Hp.
  all: try (cbn; split; [lia | ]; split; [intros req [] | ];
            intros s p' _ _ [= <-] H; rewrite Hp in H; discriminate H).
  all: split; [cbn; lia | ].
  all: split;
    [ | intros s p' _ _ [= <-] H; rewrite Hp in H; now injection H as <- ].
  all: intros req [<- | []].
  all: split; [reflexivity | ]. all: split; [exact Hlen | ].
  all: split; [auto | ].
  all: unfold delivery_request; cbn [main_notifier webhook_url];
    rewrite Hw; cbn [webhook_request bot_request req_json req_timeout
                     req_url].
  all: split; [exists summary; split; [reflexivity | exact Hp] | ].
  all: split; [exact (rendered_channel _ _ _ _ _ Hp) | ].
  all: split; [reflexivity | ].
  all: try reflexivity.
  all: unfold main_notifier; cbn [webhook_url].
  all: destruct (w_getenv w "SLACK_WEBHOOK_URL");
    [reflexivity | discriminate Hw].
Qed.

Lemma send_notification_line (w : World) (self : SlackNotifier)
      (payload : pyval) :
  Py.str_truthy (webhook_url self) = true
  \/ Py.str_truthy (bot_token self) = true ->
  exists (b : bool) (line : string),
    send_notification w self payload
    = ([EPost (delivery_request self payload); EPrint line], inr (Some b))
    /\ starts_with (if b then "✅" else "❌") line = true.
Proof.
  intros Hvalid. unfold delivery_request.
  destruct (Py.str_truthy (webhook_url self)) eqn:Hw.
  - rewrite (send_notification_webhook w self payload Hw).
    destruct (w_post w _) as [e | resp];
      [ | destruct (status_code resp =? 200)%Z ];
      eexists; eexists; split; reflexivity.
  - destruct Hvalid as [Hv | Hb]; [discriminate | ].
    rewrite (send_notification_bot w self payload Hw Hb).
    destruct (w_post w _) as [e | resp];
      [ | destruct (json_loads (text resp)) as [e | result];
          [ | destruct (Py.get result "ok" PNone) as [e | ok];
              [ | destruct (Py.truthy ok) ] ] ];
      eexists; eexists; split; reflexivity.
Qed.

(** X11. Every run of [main] ends in [sys.exit] with code 0 or 1, and
    the last thing it does before is print a line: the success line when
    the code is 0; the usage line or a line that opens with the cross when
    the code is 1. No failure is silent and no exception escapes. *)
Theorem X11_main_always_reports (w : World) :
  exists (tr : list event) (line : string) (code : Z),
    main w = ((tr ++ [EPrint line])%list, inl (SystemExit code))
    /\ (code = 0%Z /\ starts_with "✅" line = true
        \/ code = 1%Z
           /\ (line = usage_line \/ starts_with "❌" line = true)).
Proof.
  rewrite main_eq.
  destruct (Nat.ltb (List.length (w_argv w)) 2).
  { exists [], usage_line, 1%Z. split; [reflexivity | right; auto]. }
  destruct (negb (Py.str_truthy (w_getenv w "SLACK_WEBHOOK_URL"))
            && negb (Py.str_truthy (w_getenv w "SLACK_BOT_TOKEN")))%bool
    eqn:Hcred.
  { exists [], missing_credentials_line, 1%Z.
    split; [reflexivity | right; split; [reflexivity | now right]]. }
  assert (Hvalid : Py.str_truthy (webhook_url (main_notifier w)) = true
                   \/ Py.str_truthy (bot_token (main_notifier w)) = true).
  { cbn. destruct (Py.str_truthy (w_getenv w "SLACK_WEBHOOK_URL"));
      [now left | ].
    destruct (Py.str_truthy (w_getenv w "SLACK_BOT_TOKEN"));
      [now right | discriminate]. }
  rewrite send_test_results_eq.
  destruct (load_test_summary_returns w (nth 1 (w_argv w) ""))
    as (summary & Hs & _).
  rewrite Hs.
  destruct (outcome (create_message_payload w (main_notifier w) summary
                       (main_github_context w))) as [r | payload] eqn:Hp.
  - destruct (create_message_payload_raises _ _ _ _ _ Hp) as (e & -> & _).
    eexists. exists ("❌ Error: " ++ exc_msg e), 1%Z.
    split; [reflexivity | right; split; [reflexivity | now right]].
  - destruct (send_notification_line w (main_notifier w) payload Hvalid)
      as (b & line & Hsend & Hline).
    rewrite Hsend. cbn [trace outcome fst snd].
    exists (trace (load_test_summary w (nth 1 (w_argv w) ""))
              ++ [EPost (delivery_request (main_notifier w) payload)])%list,
      line, (if b then 0%Z else 1%Z).
    split.
    + rewrite <- app_assoc. now destruct b.
    + destruct b; [left | right]; auto.
Qed.

Lemma bind_ext {A B : Type} (m : M A) (k1 k2 : A -> M B) :
  (forall a, k1 a = k2 a) -> bind m k1 = bind m k2.
Proof.
  intros H. destruct m as [tr [r | a]]; cbn; [reflexivity | ].
  now rewrite H.
Qed.

(** [send_test_results] reads the file system, the clock and the
    network; not the arguments, not the environment. *)
Lemma send_test_results_world (w1 w2 : World) (self : SlackNotifier)
      (summary_file : string) (ctx : list (string * string)) :
  w_open_read w1 = w_open_read w2 ->
  w_now w1 = w_now w2 ->
  w_post w1 = w_post w2 ->
  send_test_results w1 self summary_file ctx
  = send_test_results w2 self summary_file ctx.
Proof.
  intros Hread Hnow Hpost. unfold send_test_results, load_test_summary.
  rewrite Hread. apply bind_ext. intros summary.
  assert (Hcmp : create_message_payload w1 self summary ctx
                 = create_message_payload w2 self summary ctx).
  { destruct summary; try reflexivity.
    cbn [create_message_payload]. now rewrite !render_eq, Hnow. }
  rewrite Hcmp. apply bind_ext. intros payload.
  unfold send_notification, requests_post. now rewrite Hpost.
Qed.

(** X12. When the command line gives all of the server URL, repository,
    run id and trigger, the [GITHUB_*] environment variables are not
    consulted: two runs that differ in the environment only, and agree on
    the three [SLACK_*] variables, do the same. *)
Theorem X12_arguments_override_environment
        (argv : list string) (env1 env2 : string -> option string)
        (files : string -> pyexc + string) (now : datetime)
        (post : request -> pyexc + response) :
  (6 <= List.length argv)%nat ->
  env1 "SLACK_WEBHOOK_URL" = env2 "SLACK_WEBHOOK_URL" ->
  env1 "SLACK_BOT_TOKEN" = env2 "SLACK_BOT_TOKEN" ->
  env1 "SLACK_CHANNEL" = env2 "SLACK_CHANNEL" ->
  main (mkWorld argv env1 files now post)
  = main (mkWorld argv env2 files now post).
Proof.
  intros Hlen Hw Hb Hc. rewrite !main_eq.
  unfold main_notifier, main_github_context, argv_or_env, getenv_default.
  cbn [w_argv w_getenv]. rewrite Hw, Hb, Hc.
  assert (H2 : Nat.ltb 2 (List.length argv) = true)
    by (apply Nat.ltb_lt; lia).
  assert (H3 : Nat.ltb 3 (List.length argv) = true)
    by (apply Nat.ltb_lt; lia).
  assert (H4 : Nat.ltb 4 (List.length argv) = true)
    by (apply Nat.ltb_lt; lia).
  assert (H5 : Nat.ltb 5 (List.length argv) = true)
    by (apply Nat.ltb_lt; lia).
  rewrite H2, H3, H4, H5.
  rewrite (send_test_results_world (mkWorld argv env1 files now post)
             (mkWorld argv env2 files now post)); reflexivity.
Qed.

End Notifier.

(** ** The properties at the sample inputs *)

(** C1 at a summary with 12 tests and no failure: SUCCESS. *)
Lemma C1_overall_status_witness :
  numeric_summary green_summary = true
  /\ exists p,
       create_message_payload sample_float_repr sample_container_str
         morning_world webhook_notifier (PDict green_summary) sample_context
       = ([], inr p)
       /\ marks_status p (mkStatus "#36a64f" "✅" "SUCCESS").
Proof.
  split; [reflexivity | ].
  destruct (C1_overall_status_success_iff sample_float_repr
              sample_container_str morning_world webhook_notifier
              green_summary sample_context) as [Hret Hmarks].
  destruct (Hret eq_refl) as [p Hp]. exists p. split; [exact Hp | ].
  destruct (Hmarks p (f_equal snd Hp)) as (st & _ & Hst & _ & Hiff & _).
  assert (E : st = mkStatus "#36a64f" "✅" "SUCCESS")
    by (apply Hiff; split; reflexivity).
  rewrite <- E. exact Hst.
Defined.

(** C2 at coverage 62: the warning marker. *)
Lemma C2_coverage_marker_witness :
  numeric_summary uat_summary = true
  /\ exists p,
       create_message_payload sample_float_repr sample_container_str
         morning_world webhook_notifier (PDict uat_summary) sample_context
       = ([], inr p)
       /\ marks_coverage p "62" "⚠️".
Proof.
  split; [reflexivity | ].
  destruct (C2_coverage_marker_tiers sample_float_repr sample_container_str
              morning_world webhook_notifier uat_summary sample_context)
    as [Hret Htiers].
  destruct (Hret eq_refl) as [p Hp]. exists p. split; [exact Hp | ].
  destruct (Htiers p (PInt 62) (f_equal snd Hp) eq_refl)
    as (_ & _ & _ & Hint & _).
  destruct (Hint 62%Z eq_refl) as (_ & Hwarn & _).
  apply Hwarn. lia.
Defined.

(** C3 at a missing file. *)
Lemma C3_fallback_witness :
  load_error sample_json_loads morning_world "summary.json"
  = Some (mkExc "FileNotFoundError"
            "[Errno 2] No such file or directory: 'summary.json'")
  /\ outcome (load_test_summary sample_json_loads morning_world
                "summary.json") = inr fallback_summary
  /\ exists payload b,
       outcome (send_test_results sample_json_loads sample_float_repr
                  sample_container_str morning_world webhook_notifier
                  "summary.json" sample_context) = inr (Some b)
       /\ posts (trace (send_test_results sample_json_loads
                          sample_float_repr sample_container_str
                          morning_world webhook_notifier "summary.json"
                          sample_context))
          = [webhook_request webhook_notifier payload].
Proof.
  split; [reflexivity | ].
  destruct (C3_fallback_then_delivery sample_json_loads sample_float_repr
              sample_container_str morning_world "summary.json"
              (mkExc "FileNotFoundError"
                 "[Errno 2] No such file or directory: 'summary.json'")
              eq_refl) as [Hload Hrun].
  split; [exact (f_equal snd Hload) | ].
  destruct (Hrun (Some "https://hooks.slack.com/services/T/B/X") None "#ci"
              webhook_notifier sample_context eq_refl)
    as (payload & b & _ & Hb & _ & _ & Hposts).
  exists payload, b. split; [exact Hb | exact Hposts].
Defined.

(** C4 at 3 failures and coverage 62: both blocks. *)
Lemma C4_conditional_blocks_witness :
  numeric_summary uat_summary = true
  /\ exists p,
       create_message_payload sample_float_repr sample_container_str
         morning_world webhook_notifier (PDict uat_summary) sample_context
       = ([], inr p)
       /\ existsb is_failure_callout (payload_blocks p) = true
       /\ existsb is_coverage_alert (payload_blocks p) = true.
Proof.
  split; [reflexivity | ].
  destruct (C4_conditional_blocks sample_float_repr sample_container_str
              morning_world webhook_notifier uat_summary sample_context)
    as [Hret Hblocks].
  destruct (Hret eq_refl) as [p Hp]. exists p. split; [exact Hp | ].
  destruct (Hblocks p (PInt 3) (PInt 62) (f_equal snd Hp) eq_refl eq_refl)
    as (_ & _ & _ & _ & Hboth & _).
  exact (Hboth eq_refl eq_refl).
Defined.

(** C5 at a webhook answering 200. *)
Lemma C5_send_notification_witness :
  SlackNotifier_init (Some "https://hooks.slack.com/services/T/B/X") None
                     "#ci" = inr webhook_notifier
  /\ exists b req,
       outcome (send_notification sample_json_loads sample_float_repr
                  sample_container_str morning_world webhook_notifier
                  PNone) = inr (Some b)
       /\ posts (trace (send_notification sample_json_loads
                          sample_float_repr sample_container_str
                          morning_world webhook_notifier PNone)) = [req].
Proof.
  split; [reflexivity | ].
  destruct (C5_send_notification_boolean sample_json_loads sample_float_repr
              sample_container_str morning_world
              (Some "https://hooks.slack.com/services/T/B/X") None "#ci"
              webhook_notifier PNone eq_refl)
    as (b & req & Hb & Hposts & _).
  exists b, req. split; [exact Hb | exact Hposts].
Defined.

(** C6 at two worlds that share the clock reading and nothing else. *)
Lemma C6_same_clock_witness :
  w_now morning_world = w_now bare_world
  /\ create_message_payload sample_float_repr sample_container_str
       morning_world webhook_notifier (PDict uat_summary) sample_context
     = create_message_payload sample_float_repr sample_container_str
         bare_world webhook_notifier (PDict uat_summary) sample_context.
Proof.
  split; [reflexivity | ].
  destruct (C6_payload_function_of_arguments_and_clock sample_float_repr
              sample_container_str morning_world bare_world webhook_notifier
              (PDict uat_summary) sample_context) as (_ & Hsame & _).
  exact (Hsame eq_refl).
Defined.

(** C7 at a webhook notifier and a bot notifier of one channel. *)
Lemma C7_payload_shape_witness :
  Py.str_truthy (webhook_url webhook_notifier) = true
  /\ Py.str_truthy (webhook_url bot_notifier) = false
  /\ channel webhook_notifier = channel bot_notifier
  /\ exists ph pb,
       create_message_payload sample_float_repr sample_container_str
         morning_world webhook_notifier (PDict uat_summary) sample_context
       = ([], inr ph)
       /\ outcome (create_message_payload sample_float_repr
                     sample_container_str morning_world bot_notifier
                     (PDict uat_summary) sample_context) = inr pb
       /\ has_key pb "username" = false
       /\ payload_blocks ph = payload_blocks pb.
Proof.
  split; [reflexivity | ]. split; [reflexivity | ]. split; [reflexivity | ].
  destruct (C7_payload_shape_by_mode sample_float_repr sample_container_str
              morning_world webhook_notifier bot_notifier
              (PDict uat_summary) sample_context eq_refl eq_refl eq_refl)
    as (_ & Hret & Hshape).
  destruct (Hret uat_summary eq_refl eq_refl) as [ph Hph].
  destruct (Hshape ph (f_equal snd Hph))
    as (pb & Hpb & _ & _ & Hname & _ & _ & _ & _ & Hblocks & _).
  exists ph, pb. repeat split; assumption.
Defined.

(** C8 at a delivered run and at a run without credentials. *)
Lemma C8_exit_codes_witness :
  exit_code (main sample_json_loads sample_float_repr sample_container_str
               morning_world) = 0%Z
  /\ exit_code (main sample_json_loads sample_float_repr
                  sample_container_str bare_world) = 1%Z
  /\ posts (trace (main sample_json_loads sample_float_repr
                     sample_container_str bare_world)) = [].
Proof.
  split.
  - destruct (C8_exit_codes sample_json_loads sample_float_repr
                sample_container_str morning_world) as (_ & Hzero & _).
    apply Hzero. split; [cbn; lia | ]. split; [left; reflexivity | ].
    eexists. eexists. split; [reflexivity | ]. split; reflexivity.
  - destruct (C8_exit_codes sample_json_loads sample_float_repr
                sample_container_str bare_world) as (_ & _ & _ & _ & Hbare).
    destruct (Hbare eq_refl eq_refl) as (Hone & Hposts & _).
    split; [exact Hone | exact Hposts].
Defined.

(** C10 at a notifier with both credentials. *)
Lemma C10_webhook_precedence_witness :
  Py.str_truthy (webhook_url both_notifier) = true
  /\ Py.str_truthy (bot_token both_notifier) = true
  /\ posts (trace (send_notification sample_json_loads sample_float_repr
                     sample_container_str api_world both_notifier PNone))
     = [mkRequest "https://hooks.slack.com/services/T/B/X" PNone
                  [("Content-Type", "application/json")] 30].
Proof.
  split; [reflexivity | ]. split; [reflexivity | ].
  destruct (C10_webhook_takes_precedence sample_json_loads sample_float_repr
              sample_container_str api_world both_notifier PNone PNone
              sample_context eq_refl eq_refl) as (_ & _ & Hposts & _).
  exact Hposts.
Defined.

(** ** Where two sentences of the specification and the code part *)

(** C3 as written does not hold: for a missing file the record returned
    is not the one with the status strings "Unknown"; the code's strings
    are "❓ Unknown". *)
Lemma C3_fallback_counterexample :
  load_error sample_json_loads morning_world "summary.json"
  = Some (mkExc "FileNotFoundError"
            "[Errno 2] No such file or directory: 'summary.json'")
  /\ outcome (load_test_summary sample_json_loads morning_world
                "summary.json")
     <> inr spec_fallback_summary
  /\ Py.get fallback_summary "status" PNone = inr (PStr "❓ Unknown")
  /\ Py.get spec_fallback_summary "status" PNone = inr (PStr "Unknown").
Proof.
  split; [reflexivity | ]. split; [ | split; reflexivity].
  intros H.
  apply (f_equal (fun r => match r with
                           | inr v => Py.get v "status" PNone
                           | inl _ => inr PNone
                           end)) in H.
  vm_compute in H. discriminate H.
Qed.

(** C6 as written does not hold: the same notifier, summary and context
    give two payloads at two clock readings; the footers differ. *)
Lemma C6_two_runs_counterexample :
  create_message_payload sample_float_repr sample_container_str
    morning_world webhook_notifier (PDict uat_summary) sample_context
  <> create_message_payload sample_float_repr sample_container_str
       evening_world webhook_notifier (PDict uat_summary) sample_context.
Proof.
  intros H.
  apply (f_equal
           (fun m => match outcome m with
                     | inr p =>
                         string_at p [Key "blocks"; Idx 5; Key "elements";
                                      Idx 0; Key "text"]
                     | inl _ => None
                     end)) in H.
  vm_compute in H. discriminate H.
Qed.

(** ** Runs *)

(** 62.5 is below 75 and not below 50; 75.0 equals 75; NaN is
    unordered. *)
Example float_comparisons :
  Py.lt_int (PFloat (S754_finite false 125 (-1))) 75 = inr true
  /\ Py.ge_int (PFloat (S754_finite false 125 (-1))) 50 = inr true
  /\ Py.eq_int (PFloat (S754_finite false 5277655813324800 (-46))) 75 = true
  /\ Py.ge_int (PFloat S754_nan) 50 = inr false
  /\ Py.lt_int (PFloat S754_nan) 75 = inr false
  /\ Py.eq_int (PBool false) 0 = true
  /\ Py.eq_int PNone 0 = false.
Proof.
  repeat split; reflexivity.
Qed.

(** A coverage of 62.5 is shown with the warning marker. *)
Example half_point_coverage :
  exists p,
    create_message_payload sample_float_repr sample_container_str
      morning_world webhook_notifier
      (PDict [("avg_coverage", PFloat (S754_finite false 125 (-1)))])
      sample_context = ([], inr p)
    /\ marks_coverage p "62.5" "⚠️".
Proof.
  eexists. split; reflexivity.
Qed.

(** A quoted failure count is not 0 and cannot be compared with 0. *)
Example quoted_count_raises :
  create_message_payload sample_float_repr sample_container_str
    morning_world webhook_notifier (PDict [("failed_tests", PStr "3")])
    sample_context
  = ([], inl (Exc (mkExc "TypeError"
       "'>' not supported between instances of 'str' and 'int'"))).
Proof.
  reflexivity.
Qed.

(** A summary that is a list has no [get]. *)
Example list_summary_raises :
  create_message_payload sample_float_repr sample_container_str
    morning_world webhook_notifier (PList []) sample_context
  = ([], inl (Exc (mkExc "AttributeError"
       "'list' object has no attribute 'get'"))).
Proof.
  reflexivity.
Qed.

(** The run with a missing summary file and a webhook answering 200. *)
Example delivered_run :
  exists req,
    main sample_json_loads sample_float_repr sample_container_str
         morning_world
    = ([warning_line "summary.json"
          (mkExc "FileNotFoundError"
             "[Errno 2] No such file or directory: 'summary.json'");
        EPost req;
        EPrint "✅ Slack notification sent successfully via webhook"],
       inl (SystemExit 0))
    /\ req_url req = "https://hooks.slack.com/services/T/B/X"
    /\ payload_text (req_json req)
       = Some "❌ Salesforce tests failed for Unknown - 0/0 tests passed, 0% coverage".
Proof.
  eexists. split; [reflexivity | split; reflexivity].
Qed.

(** A summary that cannot be rendered: the error is printed, nothing is
    sent, the exit code is 1. *)
Example quoted_count_run :
  main sample_json_loads sample_float_repr sample_container_str
       quoted_count_world
  = ([EPrint
        "❌ Error: '>' not supported between instances of 'str' and 'int'"],
     inl (SystemExit 1)).
Proof.
  reflexivity.
Qed.

(** The API answers [ok: false]. *)
Example refused_run :
  exists req,
    main sample_json_loads sample_float_repr sample_container_str
         refusing_world
    = ([warning_line "summary.json"
          (mkExc "FileNotFoundError"
             "[Errno 2] No such file or directory: 'summary.json'");
        EPost req;
        EPrint
          "❌ Failed to send Slack notification via bot token: channel_not_found"],
       inl (SystemExit 1))
    /\ req_url req = bot_api_url
    /\ req_headers req = [("Authorization", "Bearer xoxb-1");
                          ("Content-Type", "application/json")].
Proof.
  eexists. split; [reflexivity | split; reflexivity].
Qed.

(** The network times out. *)
Example offline_run :
  exists req,
    main sample_json_loads sample_float_repr sample_container_str
         offline_world
    = ([warning_line "summary.json"
          (mkExc "FileNotFoundError"
             "[Errno 2] No such file or directory: 'summary.json'");
        EPost req;
        EPrint
          "❌ Exception while sending Slack notification: connection timed out"],
       inl (SystemExit 1)).
Proof.
  eexists. reflexivity.
Qed.

(** No summary file on the command line. *)
Example no_argument_run :
  main sample_json_loads sample_float_repr sample_container_str
       (mkWorld ["slack-notifier.py"] sample_env no_such_file
                (mkDatetime 2024 3 7 9 5 0)
                (fun _ => inr (mkResponse 200 "ok")))
  = ([EPrint usage_line], inl (SystemExit 1)).
Proof.
  reflexivity.
Qed.

(** ** The further properties at the sample inputs *)

(** X1 at an empty webhook URL and no token. *)
Lemma X1_init_witness :
  missing (Some "") /\ missing None
  /\ SlackNotifier_init (Some "") None "#ci"
     = inl (Exc (mkExc "ValueError"
                   "Either webhook_url or bot_token must be provided")).
Proof.
  assert (H1 : missing (Some "")) by (right; reflexivity).
  assert (H2 : missing None) by (left; reflexivity).
  split; [exact H1 | ]. split; [exact H2 | ].
  destruct (X1_init_rejects_missing_credentials (Some "") None "#ci")
    as [[_ Hraise] _].
  exact (Hraise (conj H1 H2)).
Defined.

(** X2 at a summary file that parses. *)
Lemma X2_load_witness :
  w_open_read quoted_count_world "summary.json" = inr quoted_count_body
  /\ sample_json_loads quoted_count_body
     = inr (PDict [("failed_tests", PStr "3")])
  /\ load_test_summary sample_json_loads quoted_count_world "summary.json"
     = ([], inr (PDict [("failed_tests", PStr "3")])).
Proof.
  split; [reflexivity | ]. split; [reflexivity | ].
  destruct (X2_load_never_raises sample_json_loads quoted_count_world
              "summary.json") as (v & _ & _ & Hparsed & _).
  exact (Hparsed quoted_count_body (PDict [("failed_tests", PStr "3")])
           eq_refl eq_refl).
Defined.

(** X3 at the empty object and the fallback record. *)
Lemma X3_render_reads_witness :
  reads_agree []
    [ ("sandbox", PStr "Unknown"); ("total_tests", PInt 0);
      ("passed_tests", PInt 0); ("failed_tests", PInt 0);
      ("avg_coverage", PInt 0); ("status", PStr "❓ Unknown");
      ("coverage_status", PStr "❓ Unknown") ]
  /\ create_message_payload sample_float_repr sample_container_str
       morning_world webhook_notifier (PDict []) sample_context
     = create_message_payload sample_float_repr sample_container_str
         morning_world webhook_notifier fallback_summary sample_context.
Proof.
  assert (H : reads_agree []
                [ ("sandbox", PStr "Unknown"); ("total_tests", PInt 0);
                  ("passed_tests", PInt 0); ("failed_tests", PInt 0);
                  ("avg_coverage", PInt 0); ("status", PStr "❓ Unknown");
                  ("coverage_status", PStr "❓ Unknown") ])
    by (repeat split; reflexivity).
  split; [exact H | ].
  exact (X3_render_reads_five_keys sample_float_repr sample_container_str
           morning_world webhook_notifier _ _ sample_context H).
Defined.

(** X4 at the UAT record: six blocks. *)
Lemma X4_block_order_witness :
  exists p,
    outcome (create_message_payload sample_float_repr sample_container_str
               morning_world webhook_notifier (PDict uat_summary)
               sample_context) = inr p
    /\ List.length (payload_blocks p) = 6%nat.
Proof.
  eexists. split; [reflexivity | ].
  destruct (X4_block_order sample_float_repr sample_container_str
              morning_world webhook_notifier uat_summary sample_context
              _ eq_refl) as (hf & lc & Hhf & Hlc & Hlen & _).
  injection Hhf as <-. injection Hlc as <-. exact Hlen.
Defined.

(** X5 at a summary without failures. *)
Lemma X5_success_witness :
  exists p,
    outcome (create_message_payload sample_float_repr sample_container_str
               morning_world webhook_notifier (PDict green_summary)
               sample_context) = inr p
    /\ marks_status p status_success
    /\ existsb is_failure_callout (payload_blocks p) = false.
Proof.
  eexists. split; [reflexivity | ].
  match goal with
  | |- marks_status ?p _ /\ _ =>
      assert (Hm : marks_status p status_success)
        by (split; [reflexivity | split; eexists; reflexivity])
  end.
  split; [exact Hm | ].
  exact (proj1 (X5_success_has_no_callout sample_float_repr
                  sample_container_str morning_world webhook_notifier
                  green_summary sample_context _ eq_refl) Hm).
Defined.


(** X7 at a webhook answering 200. *)
Lemma X7_one_request_witness :
  Py.str_truthy (webhook_url webhook_notifier) = true
  /\ exists b line,
       send_notification sample_json_loads sample_float_repr
         sample_container_str morning_world webhook_notifier PNone
       = ([EPost (delivery_request webhook_notifier PNone); EPrint line],
          inr (Some b))
       /\ starts_with (if b then "✅" else "❌") line = true.
Proof.
  split; [reflexivity | ].
  destruct (X7_one_request_one_line sample_json_loads sample_float_repr
              sample_container_str morning_world webhook_notifier PNone
              (or_introl eq_refl)) as (b & line & Hsend & Hline & _).
  exists b, line. split; [exact Hsend | exact Hline].
Defined.

(** X8 at an object whose token was reset to the empty string. *)
Lemma X8_no_credential_witness :
  missing (webhook_url (mkNotifier None (Some "") "#ci"))
  /\ missing (bot_token (mkNotifier None (Some "") "#ci"))
  /\ send_notification sample_json_loads sample_float_repr
       sample_container_str morning_world (mkNotifier None (Some "") "#ci")
       PNone
     = ([], inr None).
Proof.
  assert (H1 : missing (webhook_url (mkNotifier None (Some "") "#ci")))
    by (left; reflexivity).
  assert (H2 : missing (bot_token (mkNotifier None (Some "") "#ci")))
    by (right; reflexivity).
  split; [exact H1 | ]. split; [exact H2 | ].
  exact (X8_no_credential_returns_none sample_json_loads sample_float_repr
           sample_container_str morning_world _ PNone H1 H2).
Defined.

(** X9 at a summary whose failure count is quoted. *)
Lemma X9_render_error_witness :
  outcome (send_test_results sample_json_loads sample_float_repr
             sample_container_str quoted_count_world webhook_notifier
             "summary.json" sample_context)
  = inl (Exc (mkExc "TypeError"
                "'>' not supported between instances of 'str' and 'int'"))
  /\ posts (trace (send_test_results sample_json_loads sample_float_repr
                     sample_container_str quoted_count_world
                     webhook_notifier "summary.json" sample_context)) = [].
Proof.
  destruct (X9_render_errors_propagate sample_json_loads sample_float_repr
              sample_container_str quoted_count_world webhook_notifier
              "summary.json" sample_context) as [Hiff Hquiet].
  assert (Hraise :
            outcome (send_test_results sample_json_loads sample_float_repr
                       sample_container_str quoted_count_world
                       webhook_notifier "summary.json" sample_context)
            = inl (Exc (mkExc "TypeError"
                 "'>' not supported between instances of 'str' and 'int'"))).
  { apply Hiff. exists (PDict [("failed_tests", PStr "3")]).
    split; reflexivity. }
  split; [exact Hraise | exact (proj1 (Hquiet _ Hraise))].
Defined.

(** X10 at the run with a missing summary file. *)
Lemma X10_main_one_request_witness :
  exists payload,
    outcome (create_message_payload sample_float_repr sample_container_str
               morning_world (main_notifier morning_world) fallback_summary
               (main_github_context morning_world)) = inr payload
    /\ posts (trace (main sample_json_loads sample_float_repr
                       sample_container_str morning_world))
       = [delivery_request (main_notifier morning_world) payload].
Proof.
  eexists. split; [reflexivity | ].
  destruct (X10_main_one_request sample_json_loads sample_float_repr
              sample_container_str morning_world) as (_ & _ & Hone).
  apply (Hone fallback_summary).
  - cbn. lia.
  - left. reflexivity.
  - reflexivity.
  - reflexivity.
Defined.

(** X12 at a full command line and two environments. *)
Lemma X12_arguments_witness :
  main sample_json_loads sample_float_repr sample_container_str
    (mkWorld ["slack-notifier.py"; "summary.json"; "https://ghe.example";
              "acme/salesforce"; "42"; "push"]
             sample_env no_such_file (mkDatetime 2024 3 7 9 5 0)
             (fun _ => inr (mkResponse 200 "ok")))
  = main sample_json_loads sample_float_repr sample_container_str
      (mkWorld ["slack-notifier.py"; "summary.json"; "https://ghe.example";
                "acme/salesforce"; "42"; "push"]
               (fun name =>
                  if (name =? "GITHUB_REPOSITORY")%string
                  then Some "other/repo" else sample_env name)
               no_such_file (mkDatetime 2024 3 7 9 5 0)
               (fun _ => inr (mkResponse 200 "ok"))).
Proof.
  apply X12_arguments_override_environment.
  - cbn. lia.
  - reflexivity.
  - reflexivity.
  - reflexivity.
Defined.
